(** * AI_hackathon.py: the expense store, its queries and the two Gemini
      adapters, embedded in Rocq.

    Conventions of the embedding.
    - Python [str] values are Rocq strings read as ASCII text; bytes above
      127 are neither whitespace nor cased, and only ASCII digits count as
      digits.
    - Python [float] values are the kernel's binary64 floats; [round],
      [sum] and the [.2f] format follow CPython (correctly rounded
      decimal conversion, compensated summation as in 3.12 and later).
    - The module-level globals [expenses] and [expense_id_counter], the
      console, the clock and the HTTP endpoint are fields of one [world]
      that every operation threads through; exceptions are a constructor
      of the outcome type.  The endpoint is a queue of pending replies;
      the clock does not move during an operation.
    - [print] is recorded as an event that carries the values printed, not
      their layout.
    - Library functions whose grammar is not part of this repository
      (float() on text, json.loads, pandas' date parsing and column sum,
      str() of an exception or a figure) are the fields of [Lib.t], a
      parameter of the program.  So is the one point where [strftime]
      depends on the platform: whether a year below 1000 is written with
      four digits. *)

From Stdlib Require Import ZArith List String Ascii Bool Lia Floats.
From Stdlib Require Import DecimalString Sorted.
Import ListNotations.

Set Warnings "-inexact-float,-register-all,-notation-for-abbreviation,-abstract-large-number".

Local Open Scope string_scope.
Local Open Scope Z_scope.

(** ** Text: str.strip and str.lower *)

Module PyStr.

(** Characters that [str.isspace] accepts in the ASCII range:
    TAB, LF, VT, FF, CR, the four separators FS GS RS US, and SPACE. *)
Definition is_space (c : ascii) : bool :=
  let n := nat_of_ascii c in
  ((9 <=? n)%nat && (n <=? 13)%nat) || ((28 <=? n)%nat && (n <=? 32)%nat).

Fixpoint lstrip (s : string) : string :=
  match s with
  | EmptyString => EmptyString
  | String c s' => if is_space c then lstrip s' else s
  end.

Fixpoint rev_onto (s acc : string) : string :=
  match s with
  | EmptyString => acc
  | String c s' => rev_onto s' (String c acc)
  end.

Definition rev (s : string) : string := rev_onto s EmptyString.

Definition rstrip (s : string) : string := rev (lstrip (rev s)).

Definition strip (s : string) : string := rstrip (lstrip s).

Definition lower_char (c : ascii) : ascii :=
  let n := nat_of_ascii c in
  if ((65 <=? n)%nat && (n <=? 90)%nat)%bool then ascii_of_nat (n + 32) else c.

Fixpoint lower (s : string) : string :=
  match s with
  | EmptyString => EmptyString
  | String c s' => String (lower_char c) (lower s')
  end.

(** [str.startswith] *)
Definition startswith (s p : string) : bool := String.prefix p s.

(** Decimal rendering of an integer, as [str(n)] and [f"{n}"] give it. *)
Definition of_Z (z : Z) : string :=
  NilZero.string_of_int (Z.to_int z).

End PyStr.

(** ** Numbers: float(), round(x, 2), sum() and the [.2f] format *)

Module PyFloat.

Local Open Scope Z_scope.

(** Quotient of [n] by [d] ([d > 0]) rounded to the nearest integer,
    ties to the even one. *)
Definition div_half_even (n d : Z) : Z :=
  let q := n / d in
  let r := n mod d in
  match (2 * r ?= d) with
  | Lt => q
  | Gt => q + 1
  | Eq => if Z.even q then q else q + 1
  end.

(** [|x| * 100] rounded half-even to an integer, where the finite
    non-zero [x] has mantissa [m] and exponent [e]: what dtoa's mode 3
    computes for two fractional digits. *)
Definition hundredths (m : positive) (e : Z) : Z :=
  let n := 100 * Zpos m in
  if 0 <=? e then n * 2 ^ e else div_half_even n (2 ^ (- e)).

(** The binary64 nearest to [h / 100], sign [s] ([h >= 0]): the
    quotient is taken with 64 extra bits and a sticky bit, then rounded
    to nearest-even once. *)
Definition of_hundredths (s : bool) (h : Z) : spec_float :=
  if h =? 0 then S754_zero s
  else
    let q := (h * 2 ^ 64) / 100 in
    let sticky := if (h * 2 ^ 64) mod 100 =? 0 then 0 else 1 in
    binary_normalize prec emax (cond_Zopp s (2 * q + sticky)) (-65) false.

(** [round(x, 2)] on a float: non-finite values and zeros round to
    themselves; otherwise the value is rounded to a two-digit decimal
    (half-even on the exact binary value) and that decimal is converted
    back to the nearest float. *)
Definition round2 (x : float) : float :=
  match Prim2SF x with
  | S754_finite s m e => SF2Prim (of_hundredths s (hundredths m e))
  | _ => x
  end.

(** [float(n)] for an int: nearest float, [None] for OverflowError. *)
Definition of_int (z : Z) : option float :=
  match binary_normalize prec emax z 0 false with
  | S754_infinity _ => None
  | sf => Some (SF2Prim sf)
  end.

Definition two_digits (n : Z) : string :=
  if n <? 10 then "0" ++ PyStr.of_Z n else PyStr.of_Z n.

(** [f"{x:.2f}"] *)
Definition format_2f (x : float) : string :=
  match Prim2SF x with
  | S754_nan => "nan"
  | S754_infinity s => if s then "-inf" else "inf"
  | S754_zero s => if s then "-0.00" else "0.00"
  | S754_finite s m e =>
      let h := hundredths m e in
      ((if s then "-" else "") ++ PyStr.of_Z (h / 100) ++ "." ++ two_digits (h mod 100))%string
  end.

(** The float branch of the builtin [sum] (CPython 3.12 and later):
    Neumaier's compensated summation with running sum [f] and
    compensation [c].  Earlier interpreters add left to right and keep
    no compensation. *)
Fixpoint sum_loop (l : list float) (f c : float) : float :=
  match l with
  | [] => if negb (PrimFloat.eqb c 0) && is_finite c then (f + c)%float else f
  | x :: rest =>
      let t := (f + x)%float in
      let c' := if PrimFloat.leb (abs x) (abs f)
                then (c + ((f - t) + x))%float
                else (c + ((x - t) + f))%float in
      sum_loop rest t c'
  end.

(** [sum(amounts)]: the start value is the int 0, returned as it is for
    an empty list (it formats as [0.00], like the float zero used
    here); the first float is added to it, the rest go through
    [sum_loop]. *)
Definition sum (l : list float) : float :=
  match l with
  | [] => 0%float
  | x :: rest => sum_loop rest (0 + x)%float 0%float
  end.

(** Truth value of a float: everything but the two zeros. *)
Definition truthy (x : float) : bool := negb (PrimFloat.eqb x 0).

End PyFloat.

(** ** Dates: strptime / strftime with the format %Y-%m-%d *)

Module PyDate.

Local Open Scope Z_scope.

Record ymd := mk_ymd { year : Z; month : Z; day : Z }.

Definition is_digit (c : ascii) : bool :=
  let n := nat_of_ascii c in ((48 <=? n)%nat && (n <=? 57)%nat)%bool.

Definition digit (c : ascii) : Z := Z.of_nat (nat_of_ascii c) - 48.

Definition in_range (c : ascii) (lo hi : Z) : bool :=
  is_digit c && (lo <=? digit c) && (digit c <=? hi).

(** The directive %m is the regular expression 1[0-2]|0[1-9]|[1-9].
    [match_m s] lists, in the order the matcher tries them, the ways it
    can consume a prefix of [s]: the value read and what is left. *)
Definition match_m (s : string) : list (Z * string) :=
  (match s with
   | String a (String b r) =>
       (if Ascii.eqb a "1" && in_range b 0 2 then [(10 + digit b, r)] else [])
       ++ (if Ascii.eqb a "0" && in_range b 1 9 then [(digit b, r)] else [])
   | _ => []
   end)
  ++ (match s with
      | String a r => if in_range a 1 9 then [(digit a, r)] else []
      | _ => []
      end).

(** The directive %d is 3[0-1]|[1-2]\d|0[1-9]|[1-9]| [1-9]. *)
Definition match_d (s : string) : list (Z * string) :=
  (match s with
   | String a (String b r) =>
       (if Ascii.eqb a "3" && in_range b 0 1 then [(30 + digit b, r)] else [])
       ++ (if in_range a 1 2 && is_digit b then [(10 * digit a + digit b, r)] else [])
       ++ (if Ascii.eqb a "0" && in_range b 1 9 then [(digit b, r)] else [])
   | _ => []
   end)
  ++ (match s with
      | String a r => if in_range a 1 9 then [(digit a, r)] else []
      | _ => []
      end)
  ++ (match s with
      | String a (String b r) =>
          if Ascii.eqb a " " && in_range b 1 9 then [(digit b, r)] else []
      | _ => []
      end).

(** First alternative whose continuation succeeds (backtracking). *)
Fixpoint first_match {A B : Type} (alts : list A) (k : A -> option B) : option B :=
  match alts with
  | [] => None
  | a :: rest => match k a with Some b => Some b | None => first_match rest k end
  end.

(** The match of (\d\d\d\d)-(%m)-(%d) at the start of [s]: the three
    numbers and the unconsumed rest. *)
Definition regex_match (s : string) : option (ymd * string) :=
  match s with
  | String y1 (String y2 (String y3 (String y4 (String dash r0)))) =>
      if is_digit y1 && is_digit y2 && is_digit y3 && is_digit y4
         && Ascii.eqb dash "-"
      then
        let y := 1000 * digit y1 + 100 * digit y2 + 10 * digit y3 + digit y4 in
        first_match (match_m r0) (fun '(m, r1) =>
          match r1 with
          | String dash2 r2 =>
              if Ascii.eqb dash2 "-"
              then first_match (match_d r2) (fun '(d, r3) => Some (mk_ymd y m d, r3))
              else None
          | EmptyString => None
          end)
      else None
  | _ => None
  end.

Definition is_leap (y : Z) : bool :=
  ((y mod 4 =? 0) && negb (y mod 100 =? 0)) || (y mod 400 =? 0).

Definition days_in_month (y m : Z) : Z :=
  if m =? 2 then (if is_leap y then 29 else 28)
  else if (m =? 4) || (m =? 6) || (m =? 9) || (m =? 11) then 30
  else 31.

(** The range check of the [datetime] constructor. *)
Definition valid (d : ymd) : bool :=
  (1 <=? year d) && (year d <=? 9999)
  && (1 <=? month d) && (month d <=? 12)
  && (1 <=? day d) && (day d <=? days_in_month (year d) (month d)).

(** [datetime.strptime(s, '%Y-%m-%d')]; [None] stands for ValueError:
    no match, unconverted data after the match, or a date out of
    range. *)
Definition strptime (s : string) : option ymd :=
  match regex_match s with
  | Some (d, EmptyString) => if valid d then Some d else None
  | _ => None
  end.

Definition pad2 (n : Z) : string :=
  if n <? 10 then "0" ++ PyStr.of_Z n else PyStr.of_Z n.

Definition pad4 (n : Z) : string :=
  if n <? 10 then "000" ++ PyStr.of_Z n
  else if n <? 100 then "00" ++ PyStr.of_Z n
  else if n <? 1000 then "0" ++ PyStr.of_Z n
  else PyStr.of_Z n.

(** The directive %Y.  CPython hands it to the C library, and the
    libraries differ below the year 1000: some write four digits (0999),
    glibc writes the number as it is (999); CPython from 3.13 on pads by
    itself.  [pad] tells which of the two the platform does.  From the
    year 1000 on the two agree. *)
Definition year_text (pad : bool) (y : Z) : string :=
  if pad then pad4 y else PyStr.of_Z y.

(** [d.strftime('%Y-%m-%d')] on a platform that pads the year or not. *)
Definition strftime (pad : bool) (d : ymd) : string :=
  (year_text pad (year d) ++ "-" ++ pad2 (month d) ++ "-" ++ pad2 (day d))%string.

End PyDate.


(** ** Python values, exceptions and the state of the process *)

(** What [json.loads] produces and what the callers pass around. *)
Inductive pyval :=
| PNone
| PBool (b : bool)
| PInt (z : Z)
| PFloat (f : float)
| PStr (s : string)
| PList (l : list pyval)
| PDict (kv : list (string * pyval)).

Inductive exn :=
| TypeError | ValueError | AttributeError | KeyError | IndexError
| OverflowError | ConnectionError | HTTPError | JSONDecodeError.

Inductive outcome (A : Type) :=
| Ok (a : A)
| Raise (e : exn).
Arguments Ok {A} a.
Arguments Raise {A} e.

(** One stored expense: the dict built by [add_expense]; [Expense.amount exp]
    is [exp['amount']]. *)
Module Expense.
Record t := mk {
  id : Z;
  amount : float;
  category : string;
  date : string;
  description : string;
  tags : list string
}.
End Expense.
Definition expense : Type := Expense.t.

(** What [print] is called with; the layout of the text is left out. *)
Inductive line :=
| LAdded (i : Z) (descr : string)
| LNoExpenses
| LRule
| LHeader
| LRow (e : expense)
| LFilterResults (n : nat)
| LNoData
| LParseError (e : exn)
| LFatal (e : exn).

Inductive schema := ExpenseArraySchema | IntentSchema.

(** The POST sent to the generateContent endpoint: the url (it carries
    the key), the user text, and, for a structured call, the system
    instruction and the response schema. *)
Record request := mk_request {
  req_url : string;
  req_text : string;
  req_system : option string;
  req_schema : option schema
}.

(** An HTTP response: its status and its body read as JSON ([None] when
    the body is not JSON). *)
Record response := mk_response {
  status : Z;
  body : option pyval
}.

Inductive reply :=
| NoConnection
| Reply (r : response).

(** A chart handle: the table handed to plotly. *)
Inductive figure :=
| Pie (rows : list (string * float))
| Line (rows : list (Z * float)).

Record world := mk_world {
  expenses : list expense;
  expense_id_counter : Z;
  stdout : list line;
  today : PyDate.ymd;
  sent : list request;
  inbox : list reply
}.

(** The module as freshly imported. *)
Definition fresh (d : PyDate.ymd) (replies : list reply) : world :=
  mk_world [] 1 [] d [] replies.

(** ** The monad of the embedding: state and exceptions *)

Definition M (A : Type) : Type := world -> outcome A * world.

Definition ret {A} (a : A) : M A := fun w => (Ok a, w).

Definition raise {A} (e : exn) : M A := fun w => (Raise e, w).

Definition bind {A B} (m : M A) (k : A -> M B) : M B :=
  fun w => match m w with
           | (Ok a, w') => k a w'
           | (Raise e, w') => (Raise e, w')
           end.

Definition lift {A} (r : outcome A) : M A := fun w => (r, w).

(** Sequencing of two steps that may raise and touch no state. *)
Definition and_then {A B} (r : outcome A) (k : A -> outcome B) : outcome B :=
  match r with
  | Ok a => k a
  | Raise e => Raise e
  end.

(** try: m / except Exception as e: h e *)
Definition try_except {A} (m : M A) (h : exn -> M A) : M A :=
  fun w => match m w with
           | (Ok a, w') => (Ok a, w')
           | (Raise e, w') => h e w'
           end.

Declare Scope py_scope.
Delimit Scope py_scope with py.
Notation "x <- m ;; k" := (bind m (fun x => k))
  (at level 61, m at next level, right associativity) : py_scope.
Notation "m ;;; k" := (bind m (fun _ => k))
  (at level 61, right associativity) : py_scope.
Local Open Scope py_scope.

Definition print (l : line) : M unit :=
  fun w => (Ok tt, mk_world (expenses w) (expense_id_counter w) (stdout w ++ [l])
                            (today w) (sent w) (inbox w)).

Definition read_expenses : M (list expense) := fun w => (Ok (expenses w), w).

(** [expenses.append(e)] *)
Definition append_expense (e : expense) : M unit :=
  fun w => (Ok tt, mk_world (expenses w ++ [e]) (expense_id_counter w) (stdout w)
                            (today w) (sent w) (inbox w)).

(** [requests.post]: the request goes out and the next reply of the
    endpoint comes in; no reply is a connection failure. *)
Definition requests_post (r : request) : M response :=
  fun w =>
    let w' rest := mk_world (expenses w) (expense_id_counter w) (stdout w)
                            (today w) (sent w ++ [r]) rest in
    match inbox w with
    | [] => (Raise ConnectionError, w' [])
    | NoConnection :: rest => (Raise ConnectionError, w' rest)
    | Reply resp :: rest => (Ok resp, w' rest)
    end.

(** [response.raise_for_status()] *)
Definition raise_for_status (r : response) : outcome unit :=
  if (400 <=? status r) && (status r <? 600) then Raise HTTPError else Ok tt.

(** [response.json()] *)
Definition response_json (r : response) : outcome pyval :=
  match body r with
  | Some v => Ok v
  | None => Raise JSONDecodeError
  end.

(** ** Operations on Python values *)

Definition truthy (v : pyval) : bool :=
  match v with
  | PNone => false
  | PBool b => b
  | PInt z => negb (z =? 0)
  | PFloat f => PyFloat.truthy f
  | PStr s => negb (String.eqb s "")
  | PList l => match l with [] => false | _ => true end
  | PDict kv => match kv with [] => false | _ => true end
  end.

(** A dict is an association list with distinct keys. *)
Fixpoint assoc {A} (k : string) (kv : list (string * A)) : option A :=
  match kv with
  | [] => None
  | (k', v) :: rest => if String.eqb k k' then Some v else assoc k rest
  end.

(** [v[k]] for a string key *)
Definition subscript (v : pyval) (k : string) : outcome pyval :=
  match v with
  | PDict kv => match assoc k kv with Some x => Ok x | None => Raise KeyError end
  | _ => Raise TypeError
  end.

(** [v[0]] *)
Definition subscript0 (v : pyval) : outcome pyval :=
  match v with
  | PList [] => Raise IndexError
  | PList (x :: _) => Ok x
  | PStr EmptyString => Raise IndexError
  | PStr (String c _) => Ok (PStr (String c EmptyString))
  | PDict _ => Raise KeyError
  | _ => Raise TypeError
  end.

(** [v.get(k, default)] *)
Definition dict_get (v : pyval) (k : string) (default : pyval) : outcome pyval :=
  match v with
  | PDict kv => Ok (match assoc k kv with Some x => x | None => default end)
  | _ => Raise AttributeError
  end.

(** [v.strip()] *)
Definition py_strip (v : pyval) : outcome string :=
  match v with
  | PStr s => Ok (PyStr.strip s)
  | _ => Raise AttributeError
  end.

(** [v.strip().lower()] *)
Definition py_strip_lower (v : pyval) : outcome string :=
  match v with
  | PStr s => Ok (PyStr.lower (PyStr.strip s))
  | _ => Raise AttributeError
  end.

(** [v.lower()] *)
Definition py_lower (v : pyval) : outcome string :=
  match v with
  | PStr s => Ok (PyStr.lower s)
  | _ => Raise AttributeError
  end.

Fixpoint chars (s : string) : list pyval :=
  match s with
  | EmptyString => []
  | String c s' => PStr (String c EmptyString) :: chars s'
  end.

(** What a [for] over [v] yields. *)
Definition iterate (v : pyval) : outcome (list pyval) :=
  match v with
  | PList l => Ok l
  | PStr s => Ok (chars s)
  | PDict kv => Ok (map (fun p => PStr (fst p)) kv)
  | _ => Raise TypeError
  end.

(** A list comprehension whose body may raise. *)
Fixpoint map_result {A B} (f : A -> outcome B) (l : list A) : outcome (list B) :=
  match l with
  | [] => Ok []
  | x :: rest =>
      match f x with
      | Raise e => Raise e
      | Ok y => match map_result f rest with
                | Raise e => Raise e
                | Ok ys => Ok (y :: ys)
                end
      end
  end.

(** ** The program *)

(** The library functions the program calls and this development does
    not define. *)
Module Lib.
Record t := mk {
  (** [float(s)] on text; [None] is ValueError. *)
  float_of_str : string -> option float;
  (** [json.loads(s)]; [None] is JSONDecodeError. *)
  json_loads : string -> option pyval;
  (** [pd.to_datetime(s, errors='coerce')]; [None] is NaT. *)
  pd_to_datetime : string -> option Z;
  (** The sum pandas takes over the amounts of one group. *)
  pd_sum : list float -> float;
  (** [str(e)] for a caught exception. *)
  str_exn : exn -> string;
  (** [str(fig)], needed where an f-string formats a tool's answer. *)
  str_figure : figure -> string;
  (** Whether [strftime] writes a year below 1000 with four digits. *)
  pads_year : bool
}.
End Lib.

(** ** Sample data for the closed statements *)

Module Sample.

Definition day : PyDate.ymd := PyDate.mk_ymd 2026 11 4.

(** A successful reply of the endpoint whose text part is [t]. *)
Definition answer (t : pyval) : reply :=
  Reply (mk_response 200
    (Some (PDict [("candidates",
                   PList [PDict [("content",
                                  PDict [("parts", PList [PDict [("text", t)]])])]])]))).

Definition good_item : pyval :=
  PDict [("amount", PFloat 3.5); ("category", PStr "Food");
         ("description", PStr "milk"); ("date", PStr "2026-11-03")].

Definition item_without_amount : pyval :=
  PDict [("category", PStr "Food"); ("description", PStr "bread");
         ("date", PStr "2026-11-03")].

(** A decoder that knows four texts. *)
Definition json_loads (s : string) : option pyval :=
  if String.eqb s "batch" then Some (PList [good_item; item_without_amount])
  else if String.eqb s "plot" then Some (PDict [("intent", PStr "plot_distribution")])
  else if String.eqb s "delete" then Some (PDict [("intent", PStr "delete")])
  else if String.eqb s "chat" then Some (PDict [("intent", PStr "None")])
  else None.

Definition str_exn (e : exn) : string :=
  match e with
  | TypeError => "TypeError"
  | ValueError => "ValueError"
  | AttributeError => "AttributeError"
  | KeyError => "KeyError"
  | IndexError => "IndexError"
  | OverflowError => "OverflowError"
  | ConnectionError => "ConnectionError"
  | HTTPError => "HTTPError"
  | JSONDecodeError => "JSONDecodeError"
  end.

Definition lib : Lib.t :=
  Lib.mk (fun _ => None) json_loads (fun _ => Some 0) PyFloat.sum str_exn (fun _ => "figure")
         false.

Definition milk : expense := Expense.mk 1 3.5 "food" "2026-11-03" "milk" [].
Definition bus : expense := Expense.mk 2 4 "transport" "2026-11-04" "bus" [].

(** A store of two records, with [replies] waiting at the endpoint. *)
Definition store (replies : list reply) : world :=
  mk_world [milk; bus] 3 [LAdded 1 "milk"; LAdded 2 "bus"] day [] replies.

(** A store whose only record has the amount NaN. *)
Definition nan_store (replies : list reply) : world :=
  mk_world [Expense.mk 1 nan "misc" "2026-11-04" "n/a" []] 2 [LAdded 1 "n/a"]
           day [] replies.

End Sample.

(** ** More sample data *)

Module Demo.

Definition rice : pyval :=
  PDict [("amount", PInt 2); ("category", PStr " Food");
         ("description", PStr "rice ")].

(** A decoder that knows three more texts. *)
Definition json_loads (s : string) : option pyval :=
  if String.eqb s "two items" then Some (PList [Sample.good_item; rice])
  else if String.eqb s "food" then
    Some (PDict [("intent", PStr "Filter"); ("category", PStr " Food ");
                 ("tag", PNone)])
  else if String.eqb s "trend" then Some (PDict [("intent", PStr "plot_trend")])
  else if String.eqb s "list" then Some (PList [])
  else None.

(** Days counted as if every month had 31 of them. *)
Definition pd_to_datetime (s : string) : option Z :=
  match PyDate.strptime s with
  | Some d => Some (372 * PyDate.year d + 31 * PyDate.month d + PyDate.day d)
  | None => None
  end.

Definition lib : Lib.t :=
  Lib.mk (fun _ => None) json_loads pd_to_datetime PyFloat.sum Sample.str_exn
         (fun _ => "figure") true.

Definition tea : expense := Expense.mk 3 1.5 "food" "2026-11-04" "tea" ["hot"].

(** A store of three records on two days and in two categories. *)
Definition store (replies : list reply) : world :=
  mk_world [Sample.milk; Sample.bus; tea] 4 [] Sample.day [] replies.

End Demo.

Section Program.

Variable lib : Lib.t.

Local Notation float_of_str := (Lib.float_of_str lib).
Local Notation json_loads := (Lib.json_loads lib).
Local Notation pd_to_datetime := (Lib.pd_to_datetime lib).
Local Notation pd_sum := (Lib.pd_sum lib).
Local Notation str_exn := (Lib.str_exn lib).
Local Notation str_figure := (Lib.str_figure lib).
Local Notation strftime := (PyDate.strftime (Lib.pads_year lib)).

(** *** 1. Global data and utilities *)

Definition get_next_id : M Z :=
  fun w => (Ok (expense_id_counter w),
            mk_world (expenses w) (expense_id_counter w + 1) (stdout w)
                     (today w) (sent w) (inbox w)).

(** [datetime.date.today().strftime('%Y-%m-%d')] *)
Definition today_str : M string := fun w => (Ok (strftime (today w)), w).

(** The ValueError of [strptime] is caught; called on anything but a
    str, [strptime] raises TypeError, which is not. *)
Definition format_date (date_str : pyval) : M string :=
  match date_str with
  | PStr s =>
      match PyDate.strptime s with
      | Some d => ret (strftime d)
      | None => today_str
      end
  | _ => raise TypeError
  end.

(** [float(v)] *)
Definition py_float (v : pyval) : outcome float :=
  match v with
  | PFloat f => Ok f
  | PInt z => match PyFloat.of_int z with Some f => Ok f | None => Raise OverflowError end
  | PBool b => Ok (if b then 1%float else 0%float)
  | PStr s => match float_of_str s with Some f => Ok f | None => Raise ValueError end
  | _ => Raise TypeError
  end.

(** *** 2. Core functions *)

(** The entries of the dict literal are evaluated in the order written:
    the id is taken before any argument is looked at. *)
Definition add_expense (amount category description date tags : pyval) : M expense :=
  i <- get_next_id ;;
  a <- lift (py_float amount) ;;
  c <- lift (py_strip_lower category) ;;
  d <- format_date date ;;
  ds <- lift (py_strip description) ;;
  ts <- lift (if truthy tags
              then match iterate tags with
                   | Ok l => map_result py_strip_lower l
                   | Raise e => Raise e
                   end
              else Ok []) ;;
  let new_expense := Expense.mk i (PyFloat.round2 a) c d ds ts in
  append_expense new_expense ;;;
  print (LAdded (Expense.id new_expense) (Expense.description new_expense)) ;;;
  ret new_expense.

(** One [print] per line of the table. *)
Fixpoint print_all (ls : list line) : M unit :=
  match ls with
  | [] => ret tt
  | l :: rest => print l ;;; print_all rest
  end.

Definition list_expenses (expense_list : option (list expense)) : M unit :=
  data_to_show <- match expense_list with
                  | Some l => ret l
                  | None => read_expenses
                  end ;;
  match data_to_show with
  | [] => print LNoExpenses
  | _ =>
      print LRule ;;; print LHeader ;;; print LRule ;;;
      print_all (map LRow data_to_show) ;;;
      print LRule
  end.

Definition filter_expenses (category tag start_date end_date : pyval) : M string :=
  filtered_list <- read_expenses ;;
  filtered_list <-
    (if truthy category then
       cat_lower <- lift (py_strip_lower category) ;;
       ret (filter (fun exp => String.eqb (Expense.category exp) cat_lower) filtered_list)
     else ret filtered_list) ;;
  filtered_list <-
    (if truthy tag then
       tag_lower <- lift (py_strip_lower tag) ;;
       ret (filter (fun exp => existsb (String.eqb tag_lower) (Expense.tags exp)) filtered_list)
     else ret filtered_list) ;;
  filtered_list <-
    (if truthy start_date then
       start_date <- format_date start_date ;;
       ret (filter (fun exp => String.leb start_date (Expense.date exp)) filtered_list)
     else ret filtered_list) ;;
  filtered_list <-
    (if truthy end_date then
       end_date <- format_date end_date ;;
       ret (filter (fun exp => String.leb (Expense.date exp) end_date) filtered_list)
     else ret filtered_list) ;;
  print (LFilterResults (List.length filtered_list)) ;;;
  list_expenses (Some filtered_list) ;;;
  let total := PyFloat.sum (map Expense.amount filtered_list) in
  ret ("Filter complete. Found " ++ PyStr.of_Z (Z.of_nat (List.length filtered_list))
       ++ " expenses totaling $" ++ PyFloat.format_2f total ++ ".")%string.

(** A row of the DataFrame: the record and its date as a timestamp. *)
Definition dataframe := list (expense * Z).

Definition with_timestamp (e : expense) : option (expense * Z) :=
  match pd_to_datetime (Expense.date e) with
  | Some t => Some (e, t)
  | None => None
  end.

Fixpoint dropna_dates (l : list expense) : dataframe :=
  match l with
  | [] => []
  | e :: rest =>
      match with_timestamp e with
      | Some r => r :: dropna_dates rest
      | None => dropna_dates rest
      end
  end.

(** [create_dataframe()], always called without an argument here: the
    amounts are floats already, so [to_numeric] changes nothing and
    [dropna] removes the rows whose amount is NaN; then the rows whose
    date pandas cannot read are removed. *)
Definition create_dataframe : M (option dataframe) :=
  data <- read_expenses ;;
  match data with
  | [] => print LNoData ;;; ret None
  | _ =>
      let df := filter (fun e => negb (is_nan (Expense.amount e))) data in
      ret (Some (dropna_dates df))
  end.

(** [df.groupby(key)['amount']]: the groups in increasing key order,
    each with its amounts in row order. *)
Fixpoint group_insert {K} (ltb eqb : K -> K -> bool) (k : K) (v : float)
         (groups : list (K * list float)) : list (K * list float) :=
  match groups with
  | [] => [(k, [v])]
  | (k', vs) :: rest =>
      if eqb k k' then (k', (vs ++ [v])%list) :: rest
      else if ltb k k' then (k, [v]) :: groups
      else (k', vs) :: group_insert ltb eqb k v rest
  end.

Definition groupby_sum {K} (ltb eqb : K -> K -> bool) (rows : list (K * float))
  : list (K * float) :=
  map (fun g => (fst g, pd_sum (snd g)))
      (fold_left (fun groups r => group_insert ltb eqb (fst r) (snd r) groups) rows []).

(** The tools answer with text or with a figure. *)
Inductive tool_output :=
| OutStr (s : string)
| OutFig (f : figure).

Definition plot_category_distribution : M tool_output :=
  df <- create_dataframe ;;
  match df with
  | None | Some [] =>
      ret (OutStr "Not enough data to generate category distribution chart.")
  | Some rows =>
      let category_spending :=
        groupby_sum String.ltb String.eqb
          (map (fun r => (Expense.category (fst r), Expense.amount (fst r))) rows) in
      ret (OutFig (Pie category_spending))
  end.

Definition plot_spending_trend : M tool_output :=
  df <- create_dataframe ;;
  match df with
  | None | Some [] =>
      ret (OutStr "Not enough data to generate spending trend chart.")
  | Some rows =>
      let daily_spending :=
        groupby_sum Z.ltb Z.eqb
          (map (fun r => (snd r, Expense.amount (fst r))) rows) in
      ret (OutFig (Line daily_spending))
  end.

(** *** 4. Gemini agent logic *)

(** The value of [**kwargs]. *)
Definition kwargs := list (string * pyval).

Definition kwarg (args : kwargs) (name : string) : pyval :=
  match assoc name args with
  | Some v => v
  | None => PNone
  end.

Definition mem_str (s : string) (l : list string) : bool := existsb (String.eqb s) l.

(** [filter_expenses] called with the dict [args] unpacked: a keyword
    that is not a parameter is a TypeError; a parameter that is not given
    is None. *)
Definition call_filter_expenses (args : kwargs) : M tool_output :=
  if forallb (fun p => mem_str (fst p) ["category"; "tag"; "start_date"; "end_date"]) args
  then
    s <- filter_expenses (kwarg args "category") (kwarg args "tag")
                         (kwarg args "start_date") (kwarg args "end_date") ;;
    ret (OutStr s)
  else raise TypeError.

Definition TOOL_MAP : list (string * (kwargs -> M tool_output)) :=
  [ ("filter", call_filter_expenses);
    ("plot_distribution", fun _ => plot_category_distribution);
    ("plot_trend", fun _ => plot_spending_trend) ].

Definition nl : string := String (ascii_of_nat 10) EmptyString.

Definition endpoint (api_key : string) : string :=
  "https://generativelanguage.googleapis.com/v1beta/models/gemini-2.5-flash-preview-09-2025:generateContent?key="
  ++ api_key.

Definition expense_system_prompt : string :=
  "You are an expense parser. Your task is to extract all individual expenses from the user's "
  ++ "raw text input, even if the user provides a list (e.g., 'potatoes 2.50" ++ nl ++ "limes 3.32'). "
  ++ "For each item, determine the amount, a suitable financial category (e.g., Groceries, Transport, Bills), "
  ++ "a description, and the date (default to today if not provided). "
  ++ "ALWAYS respond with a JSON array that strictly matches the required schema. If no expenses are found, return an empty array.".

Definition intent_system_prompt : string :=
  "You are an intelligent data agent. Analyze the user's request and determine the user's intent: "
  ++ "'plot_distribution' (for pie/bar charts), 'plot_trend' (for line charts), 'filter' (for specific data requests), or 'none' (for greetings/other questions). "
  ++ "Extract any relevant parameters like category or dates. Respond ONLY with a single JSON object matching the required schema. Do not output any other text.".

(** [v['candidates'][0]['content']['parts'][0]['text']] *)
Definition candidate_text (v : pyval) : outcome pyval :=
  and_then (subscript v "candidates") (fun v1 =>
  and_then (subscript0 v1) (fun v2 =>
  and_then (subscript v2 "content") (fun v3 =>
  and_then (subscript v3 "parts") (fun v4 =>
  and_then (subscript0 v4) (fun v5 =>
  subscript v5 "text"))))).

Definition loads (s : string) : outcome pyval :=
  match json_loads s with
  | Some v => Ok v
  | None => Raise JSONDecodeError
  end.

(** One turn of the loop body: the four [item.get] and the call. *)
Definition add_item (item : pyval) : M expense :=
  amount <- lift (dict_get item "amount" PNone) ;;
  category <- lift (dict_get item "category" PNone) ;;
  description <- lift (dict_get item "description" PNone) ;;
  t <- today_str ;;
  date <- lift (dict_get item "date" (PStr t)) ;;
  add_expense amount category description date PNone.

Fixpoint add_items (items : list pyval) (parsed_count : Z) : M Z :=
  match items with
  | [] => ret parsed_count
  | item :: rest => add_item item ;;; add_items rest (parsed_count + 1)
  end.

Definition parse_expenses_via_gemini (user_prompt api_key : string)
  : M (option (list pyval) * string) :=
  if String.eqb api_key "" then ret (None, "API Key is missing.")
  else
    let payload := mk_request (endpoint api_key) user_prompt
                              (Some expense_system_prompt) (Some ExpenseArraySchema) in
    try_except
      (response <- requests_post payload ;;
       lift (raise_for_status response) ;;;
       result <- lift (response_json response) ;;
       raw <- lift (candidate_text result) ;;
       json_text <- lift (py_strip raw) ;;
       expenses_list <- lift (loads json_text) ;;
       match expenses_list with
       | PList items =>
           parsed_count <- add_items items 0 ;;
           ret (Some items,
                "Successfully parsed and added " ++ PyStr.of_Z parsed_count ++ " expenses.")
       | _ => ret (None, "⚠️ Gemini returned non-list JSON: " ++ json_text)
       end)
      (fun e =>
         print (LParseError e) ;;;
         ret (None, "An error occurred during parsing: " ++ str_exn e)).

Definition str_output (o : tool_output) : string :=
  match o with
  | OutStr s => s
  | OutFig f => str_figure f
  end.

Definition is_none (v : pyval) : bool :=
  match v with PNone => true | _ => false end.

(** [{k: v for k, v in d.items() if k != 'intent' and v is not None}] *)
Definition intent_args (intent_data : pyval) : outcome kwargs :=
  match intent_data with
  | PDict kv =>
      Ok (filter (fun p => negb (String.eqb (fst p) "intent") && negb (is_none (snd p))) kv)
  | _ => Raise AttributeError
  end.

Definition execute_agent_command (user_prompt api_key : string)
  : M (pyval * option figure) :=
  if String.eqb api_key "" then ret (PStr "API Key is missing.", None)
  else
    let url := endpoint api_key in
    let payload := mk_request url user_prompt
                              (Some intent_system_prompt) (Some IntentSchema) in
    try_except
      (response <- requests_post payload ;;
       lift (raise_for_status response) ;;;
       result <- lift (response_json response) ;;
       raw <- lift (candidate_text result) ;;
       json_text <- lift (py_strip raw) ;;
       intent_data <- lift (loads json_text) ;;
       intent <- lift (and_then (dict_get intent_data "intent" (PStr "none")) py_lower) ;;
       args <- lift (intent_args intent_data) ;;
       match assoc intent TOOL_MAP with
       | Some tool =>
           stored <- read_expenses ;;
           match stored with
           | [] =>
               ret (PStr ("Tool '" ++ intent
                          ++ "' could not run. No expenses have been added yet."), None)
           | _ =>
               tool_output <- tool args ;;
               if PyStr.startswith intent "plot" then
                 match tool_output with
                 | OutStr s => ret (PStr ("❌ Charting Failed: " ++ s), None)
                 | OutFig f => ret (PStr "✅ Done! Chart generated successfully.", Some f)
                 end
               else ret (PStr ("✅ Done! " ++ str_output tool_output), None)
           end
       | None =>
           if String.eqb intent "none" || String.eqb intent "unhandled" then
             let natural_payload :=
               mk_request url
                 ("Generate a short, friendly response to this query: " ++ user_prompt)
                 None None in
             response <- requests_post natural_payload ;;
             lift (raise_for_status response) ;;;
             result <- lift (response_json response) ;;
             text <- lift (candidate_text result) ;;
             ret (text, None)
           else
             ret (PStr ("Agent could not map '" ++ intent ++ "' to an action."), None)
       end)
      (fun e =>
         print (LFatal e) ;;;
         ret (PStr ("An internal error occurred: " ++ str_exn e), None)).

(** *** Definitions used to state the properties *)

(** The world after some more lines were printed. *)
Definition out (w : world) (ls : list line) : world :=
  mk_world (expenses w) (expense_id_counter w) (stdout w ++ ls)
           (today w) (sent w) (inbox w).

(** The world after one more request went out and the head of the
    inbox was consumed. *)
Definition posted (w : world) (r : request) : world :=
  mk_world (expenses w) (expense_id_counter w) (stdout w)
           (today w) (sent w ++ [r]) (tl (inbox w)).

(** The record [add_expense] builds with id [i] on the day [d], or the
    exception one of its arguments causes. *)
Definition build_expense (d : PyDate.ymd) (i : Z)
           (amount category description date tags : pyval) : outcome expense :=
  and_then (py_float amount) (fun a =>
  and_then (py_strip_lower category) (fun c =>
  and_then (match date with
            | PStr s => Ok (match PyDate.strptime s with
                            | Some x => strftime x
                            | None => strftime d
                            end)
            | _ => Raise TypeError
            end) (fun dt =>
  and_then (py_strip description) (fun ds =>
  and_then (if truthy tags then and_then (iterate tags) (map_result py_strip_lower)
            else Ok []) (fun ts =>
  Ok (Expense.mk i (PyFloat.round2 a) c dt ds ts)))))).

(** The world after [add_expense] stored [e]. *)
Definition stored (w : world) (e : expense) : world :=
  mk_world (expenses w ++ [e]) (expense_id_counter w + 1)
           (stdout w ++ [LAdded (Expense.id e) (Expense.description e)])
           (today w) (sent w) (inbox w).

(** The world after [add_expense] took an id and then raised. *)
Definition skipped (w : world) : world :=
  mk_world (expenses w) (expense_id_counter w + 1) (stdout w)
           (today w) (sent w) (inbox w).

(** A client that calls [add_expense] once per entry of [calls] and
    keeps every outcome, going on after a failure. *)
Record add_call := mk_call {
  c_amount : pyval; c_category : pyval; c_description : pyval;
  c_date : pyval; c_tags : pyval
}.

Fixpoint run_calls (calls : list add_call) (w : world)
  : list (outcome expense) * world :=
  match calls with
  | [] => ([], w)
  | c :: rest =>
      let (o, w1) := add_expense (c_amount c) (c_category c) (c_description c)
                                 (c_date c) (c_tags c) w in
      let (os, w2) := run_calls rest w1 in
      (o :: os, w2)
  end.

(** [n] consecutive integers from [a]. *)
Fixpoint count_from (a : Z) (n : nat) : list Z :=
  match n with
  | O => []
  | S k => a :: count_from (a + 1) k
  end.

(** Tags given as a list of text, or left out. *)
Definition text_tags (o : option (list string)) : pyval :=
  match o with
  | Some l => PList (map PStr l)
  | None => PNone
  end.

Definition is_text (v : pyval) : bool :=
  match v with PStr _ => true | _ => false end.

(** A filter criterion given as text, or left out. *)
Definition crit (o : option string) : pyval :=
  match o with
  | Some s => PStr s
  | None => PNone
  end.

(** A criterion is supplied when it is a non-empty text. *)
Definition supplied (o : option string) : option string :=
  match o with
  | Some s => if String.eqb s "" then None else Some s
  | None => None
  end.

(** The bound a date criterion stands for on the day [d]. *)
Definition date_bound (d : PyDate.ymd) (s : string) : string :=
  match PyDate.strptime s with
  | Some x => strftime x
  | None => strftime d
  end.

Definition category_matches (category : option string) (exp : expense) : bool :=
  match supplied category with
  | Some c => String.eqb (Expense.category exp) (PyStr.lower (PyStr.strip c))
  | None => true
  end.

Definition tag_matches (tag : option string) (exp : expense) : bool :=
  match supplied tag with
  | Some t => mem_str (PyStr.lower (PyStr.strip t)) (Expense.tags exp)
  | None => true
  end.

Definition from_date (d : PyDate.ymd) (start_date : option string) (exp : expense) : bool :=
  match supplied start_date with
  | Some s => String.leb (date_bound d s) (Expense.date exp)
  | None => true
  end.

Definition to_date (d : PyDate.ymd) (end_date : option string) (exp : expense) : bool :=
  match supplied end_date with
  | Some s => String.leb (Expense.date exp) (date_bound d s)
  | None => true
  end.

(** The selection as the specification words it: every supplied
    criterion holds. *)
Definition matches (d : PyDate.ymd) (category tag start_date end_date : option string)
           (exp : expense) : bool :=
  category_matches category exp
  && (tag_matches tag exp
      && (from_date d start_date exp && to_date d end_date exp)).

(** What [list_expenses] prints for [data]. *)
Definition listing (data : list expense) : list line :=
  match data with
  | [] => [LNoExpenses]
  | _ => [LRule; LHeader; LRule] ++ map LRow data ++ [LRule]
  end.

(** The summary [filter_expenses] returns for the selection [sel]. *)
Definition report (sel : list expense) : string :=
  ("Filter complete. Found " ++ PyStr.of_Z (Z.of_nat (List.length sel))
   ++ " expenses totaling $" ++ PyFloat.format_2f (PyFloat.sum (map Expense.amount sel))
   ++ ".")%string.

(** An operation that only prints: whatever it returns, the world it
    leaves differs from the one it found by some lines on the console. *)
Definition prints {A} (m : M A) : Prop :=
  forall w, exists ls, snd (m w) = out w ls.

(** What the next reply of the endpoint holds at
    ['candidates'][0]['content']['parts'][0]['text'], or the exception
    on the way there. *)
Definition reply_text (r : reply) : outcome pyval :=
  match r with
  | NoConnection => Raise ConnectionError
  | Reply resp =>
      and_then (raise_for_status resp) (fun _ =>
      and_then (response_json resp) candidate_text)
  end.

Definition next_reply (w : world) : outcome pyval :=
  match inbox w with
  | [] => Raise ConnectionError
  | r :: _ => reply_text r
  end.

(** The stripped text of the next structured response. *)
Definition next_text (w : world) : outcome string :=
  and_then (next_reply w) py_strip.

(** The record one element of the extraction batch gives on day [d]
    with id [i]. *)
Definition item_record (d : PyDate.ymd) (i : Z) (item : pyval) : outcome expense :=
  match item with
  | PDict kv =>
      build_expense d i
        (match assoc "amount" kv with Some x => x | None => PNone end)
        (match assoc "category" kv with Some x => x | None => PNone end)
        (match assoc "description" kv with Some x => x | None => PNone end)
        (match assoc "date" kv with Some x => x | None => PStr (strftime d) end)
        PNone
  | _ => Raise AttributeError
  end.

(** Whether an element of the batch can be inserted. *)
Definition inserts (d : PyDate.ymd) (item : pyval) : bool :=
  match item_record d 0 item with
  | Ok _ => true
  | Raise _ => false
  end.

(** The elements in front of the first one that cannot be inserted. *)
Fixpoint ok_prefix (d : PyDate.ymd) (items : list pyval) : list pyval :=
  match items with
  | [] => []
  | item :: rest => if inserts d item then item :: ok_prefix d rest else []
  end.

(** The records those elements give, with ids from [i]. *)
Fixpoint inserted (d : PyDate.ymd) (i : Z) (items : list pyval) : list expense :=
  match items with
  | [] => []
  | item :: rest =>
      match item_record d i item with
      | Ok e => e :: inserted d (i + 1) rest
      | Raise _ => []
      end
  end.

(** The rows [create_dataframe] keeps. *)
Definition kept_rows (l : list expense) : dataframe :=
  dropna_dates (filter (fun e => negb (is_nan (Expense.amount e))) l).

(** The structured request of [execute_agent_command] and the free-form
    one of its conversational branch. *)
Definition intent_request (text api_key : string) : request :=
  mk_request (endpoint api_key) text (Some intent_system_prompt) (Some IntentSchema).

Definition natural_request (text api_key : string) : request :=
  mk_request (endpoint api_key)
             ("Generate a short, friendly response to this query: " ++ text) None None.

(** The intent label a parsed response resolves to. *)
Definition resolved_intent (v : pyval) : outcome string :=
  and_then (dict_get v "intent" (PStr "none")) py_lower.

(** Whether [pad4 y] is four digits that read as [y]. *)
Definition year_ok (y : Z) : bool :=
  match PyDate.pad4 y with
  | String a (String b (String c (String e EmptyString))) =>
      PyDate.is_digit a && PyDate.is_digit b && PyDate.is_digit c && PyDate.is_digit e
      && (1000 * PyDate.digit a + 100 * PyDate.digit b + 10 * PyDate.digit c
          + PyDate.digit e =? y)
  | _ => false
  end.

(** The month and the day the matcher reads behind the year and its
    dash, and what it leaves. *)
Definition match_md (r0 : string) : option (Z * Z * string) :=
  PyDate.first_match (PyDate.match_m r0) (fun '(m, r1) =>
    match r1 with
    | String dash2 r2 =>
        if Ascii.eqb dash2 "-"
        then PyDate.first_match (PyDate.match_d r2) (fun '(d, r3) => Some (m, d, r3))
        else None
    | EmptyString => None
    end).

(** Whether the two-digit rendering of month [m] and day [d] is read
    back as [m] and [d] with nothing left. *)
Definition month_day_ok (m d : Z) : bool :=
  match match_md (PyDate.pad2 m ++ "-" ++ PyDate.pad2 d) with
  | Some (m', d', EmptyString) => (m' =? m) && (d' =? d)
  | _ => false
  end.

(** The integers from 1 to [n]. *)
Definition upto (n : nat) : list Z := map Z.of_nat (seq 1 n).

(** Whether the year [y] is written with four digits: the platform
    pads, or the year has four digits of its own. *)
Definition four_digits (y : Z) : bool := Lib.pads_year lib || (1000 <=? y).

(** Whether one of the first [n] characters of [s] is not a digit. *)
Fixpoint non_digit_within (n : nat) (s : string) : bool :=
  match n, s with
  | S k, String a r => negb (PyDate.is_digit a) || non_digit_within k r
  | _, _ => false
  end.

(** The date a date criterion stands for on the day [d]:
    [date_bound d s] is its text. *)
Definition bound_date (d : PyDate.ymd) (s : string) : PyDate.ymd :=
  match PyDate.strptime s with
  | Some x => x
  | None => d
  end.


(** A date text that [strftime] wrote for a calendar date; where the
    year of that date is written with four digits, [strptime] reads the
    text back as the same date. *)
Definition rendered (s : string) : Prop :=
  exists x, PyDate.valid x = true /\ s = strftime x
            /\ (four_digits (PyDate.year x) = true -> PyDate.strptime s = Some x).

(** A record as [add_expense] normalises it: category and tags
    stripped and lower-cased, description stripped. *)
Definition normalized (e : expense) : Prop :=
  PyStr.lower (PyStr.strip (Expense.category e)) = Expense.category e
  /\ PyStr.strip (Expense.description e) = Expense.description e
  /\ Forall (fun t => PyStr.lower (PyStr.strip t) = t) (Expense.tags e).

(** The entry points of the module, with their arguments. *)
Inductive call :=
| AddExpense (amount category description date tags : pyval)
| ListExpenses (expense_list : option (list expense))
| FilterExpenses (category tag start_date end_date : pyval)
| CreateDataframe
| PlotCategoryDistribution
| PlotSpendingTrend
| ParseExpensesViaGemini (user_prompt api_key : string)
| ExecuteAgentCommand (user_prompt api_key : string).

(** The world one call leaves, whatever it returns or raises. *)
Definition run_call (c : call) (w : world) : world :=
  match c with
  | AddExpense a c ds d t => snd (add_expense a c ds d t w)
  | ListExpenses l => snd (list_expenses l w)
  | FilterExpenses c t s e => snd (filter_expenses c t s e w)
  | CreateDataframe => snd (create_dataframe w)
  | PlotCategoryDistribution => snd (plot_category_distribution w)
  | PlotSpendingTrend => snd (plot_spending_trend w)
  | ParseExpensesViaGemini text key => snd (parse_expenses_via_gemini text key w)
  | ExecuteAgentCommand text key => snd (execute_agent_command text key w)
  end.

(** A session: the calls made one after the other. *)
Definition run (calls : list call) (w : world) : world :=
  fold_left (fun w0 c => run_call c w0) calls w.

(** An operation under which the property [P] of worlds is kept. *)
Definition keeps (P : world -> Prop) {A} (m : M A) : Prop :=
  forall w, P w -> P (snd (m w)).

(** The ids of the store: strictly increasing in insertion order, from 1
    on and all below the counter. *)
Definition ids_ok (w : world) : Prop :=
  StronglySorted Z.lt (map Expense.id (expenses w))
  /\ Forall (fun e => 1 <= Expense.id e < expense_id_counter w) (expenses w)
  /\ 1 <= expense_id_counter w.

(** The groups [groupby_sum] sums: the rows inserted one by one. *)
Definition groups_of {K} (ltb eqb : K -> K -> bool) (rows : list (K * float))
  : list (K * list float) :=
  fold_left (fun groups r => group_insert ltb eqb (fst r) (snd r) groups) rows [].

(** The amounts of the rows whose key is [k], in row order. *)
Definition amounts_of {K} (eqb : K -> K -> bool) (k : K) (rows : list (K * float))
  : list float :=
  map snd (filter (fun r => eqb (fst r) k) rows).

(** The amounts of the first group whose key is [k]. *)
Definition group_of {K} (eqb : K -> K -> bool) (k : K) (groups : list (K * list float))
  : list float :=
  match find (fun g => eqb (fst g) k) groups with
  | Some g => snd g
  | None => []
  end.

(** The two columns the category chart is drawn from. *)
Definition category_rows (df : dataframe) : list (string * float) :=
  map (fun r => (Expense.category (fst r), Expense.amount (fst r))) df.

(** The two columns the trend chart is drawn from. *)
Definition date_rows (df : dataframe) : list (Z * float) :=
  map (fun r => (snd r, Expense.amount (fst r))) df.

(** ** Properties *)

Local Open Scope list_scope.

(** *** The library models on known values *)

Example round2_half_even : PyFloat.round2 0.125 = 0.12%float.
Proof. vm_compute. reflexivity. Qed.

Example round2_below_tie : PyFloat.round2 2.675 = 2.67%float.
Proof. vm_compute. reflexivity. Qed.

Example round2_large : PyFloat.round2 123456789012345.678 = 123456789012345.67%float.
Proof. vm_compute. reflexivity. Qed.

Example round2_negative_zero : PyFloat.round2 (-0.001) = (-0)%float.
Proof. vm_compute. reflexivity. Qed.

Example format_2f_rounds : PyFloat.format_2f 12.345 = "12.35"%string.
Proof. vm_compute. reflexivity. Qed.

Example sum_compensated : PyFloat.sum [0.1; 0.2; 0.3]%float = 0.6%float.
Proof. vm_compute. reflexivity. Qed.

Example strip_lower_groceries : PyStr.lower (PyStr.strip " Groceries ") = "groceries"%string.
Proof. reflexivity. Qed.

Example strptime_one_digit :
  PyDate.strptime "2024-1-5" = Some (PyDate.mk_ymd 2024 1 5)
  /\ PyDate.strftime true (PyDate.mk_ymd 2024 1 5) = "2024-01-05"%string
  /\ PyDate.strftime false (PyDate.mk_ymd 2024 1 5) = "2024-01-05"%string.
Proof. repeat split; reflexivity. Qed.

Example strftime_year_999 :
  PyDate.strftime true (PyDate.mk_ymd 999 1 1) = "0999-01-01"%string
  /\ PyDate.strftime false (PyDate.mk_ymd 999 1 1) = "999-01-01"%string
  /\ PyDate.strptime "0999-01-01" = Some (PyDate.mk_ymd 999 1 1)
  /\ PyDate.strptime "999-01-01" = None.
Proof. repeat split; reflexivity. Qed.

Example strptime_rejects :
  PyDate.strptime "2024-02-30" = None
  /\ PyDate.strptime "2024-12-311" = None
  /\ PyDate.strptime "0000-01-01" = None
  /\ PyDate.strptime "bad-date" = None.
Proof. repeat split; reflexivity. Qed.

(** *** The insertion operation *)


(** [add_expense] in one step: the id is consumed in every case, the
    record is appended and announced when no argument raises. *)
Lemma add_expense_eq (amount category description date tags : pyval) (w : world) :
  add_expense amount category description date tags w =
  match build_expense (today w) (expense_id_counter w)
                      amount category description date tags with
  | Ok e => (Ok e, stored w e)
  | Raise x => (Raise x, skipped w)
  end.
Proof.
  unfold add_expense, build_expense, bind, lift, get_next_id.
  destruct (py_float amount) as [a|x]; cbn [and_then]; [|reflexivity].
  destruct (py_strip_lower category) as [c|x]; cbn [and_then]; [|reflexivity].
  assert (Hd : forall w0 : world, today w0 = today w ->
            format_date date w0 =
            (match date with
             | PStr s => Ok (match PyDate.strptime s with
                             | Some x => strftime x
                             | None => strftime (today w)
                             end)
             | _ => Raise TypeError
             end, w0)).
  { intros w0 Hw0. unfold format_date, today_str, ret, raise.
    destruct date; try reflexivity.
    destruct (PyDate.strptime s); [reflexivity| now rewrite Hw0]. }
  rewrite Hd by reflexivity. clear Hd.
  destruct date as [| | | |s| |]; cbn [and_then]; try reflexivity.
  destruct (py_strip description) as [ds|x]; cbn [and_then]; [|reflexivity].
  destruct (truthy tags).
  - destruct (iterate tags) as [l|x]; cbn [and_then]; [|reflexivity].
    destruct (map_result py_strip_lower l) as [ts|x]; reflexivity.
  - reflexivity.
Qed.

Lemma build_expense_id d i a c ds dt t e :
  build_expense d i a c ds dt t = Ok e -> Expense.id e = i.
Proof.
  unfold build_expense, and_then.
  repeat match goal with
         | |- context [match ?x with _ => _ end] => destruct x; try discriminate
         end;
    intros H; inversion H; reflexivity.
Qed.

Lemma run_calls_ids (calls : list add_call) :
  forall w : world,
    Forall (fun o => exists e, o = Ok e) (fst (run_calls calls w)) ->
    exists recs,
      fst (run_calls calls w) = map Ok recs
      /\ expenses (snd (run_calls calls w)) = expenses w ++ recs
      /\ map Expense.id recs = count_from (expense_id_counter w) (List.length calls).
Proof.
  induction calls as [|c rest IH]; intros w Hall.
  - exists []. cbn. now rewrite app_nil_r.
  - cbn [run_calls] in *. rewrite add_expense_eq in *.
    destruct (build_expense (today w) (expense_id_counter w) (c_amount c)
                (c_category c) (c_description c) (c_date c) (c_tags c))
      as [e|x] eqn:Hb.
    + destruct (run_calls rest (stored w e)) as [os w2] eqn:Hr.
      cbn [fst snd] in *.
      inversion Hall as [|o os' _ Hos]; subst.
      specialize (IH (stored w e)). rewrite Hr in IH. cbn [fst snd] in IH.
      destruct (IH Hos) as (recs & Hout & Hexp & Hids).
      exists (e :: recs). repeat split.
      * cbn. now rewrite Hout.
      * rewrite Hexp. cbn. now rewrite <- app_assoc.
      * cbn. rewrite Hids. cbn. f_equal. eapply build_expense_id; eauto.
    + destruct (run_calls rest (skipped w)) as [os w2].
      cbn [fst] in Hall. inversion Hall as [|o os' Ho _]; subst.
      destruct Ho as [e He]. discriminate.
Qed.

Lemma map_result_text (l : list string) :
  map_result py_strip_lower (map PStr l)
  = Ok (map (fun t => PyStr.lower (PyStr.strip t)) l).
Proof.
  induction l as [|t l IH]; cbn [map map_result py_strip_lower]; [reflexivity|].
  now rewrite IH.
Qed.

Lemma map_result_not_text (l : list pyval) :
  forallb is_text l = false -> map_result py_strip_lower l = Raise AttributeError.
Proof.
  induction l as [|v l IH]; cbn [forallb map_result]; [discriminate|].
  destruct v; cbn [is_text andb py_strip_lower]; try reflexivity.
  intros H. now rewrite (IH H).
Qed.

(** C2 (amended): with text for category, description and date,
    [add_expense] raises what [float(amount)] raises, whatever the tags
    are.  When [float(amount)] returns, the call succeeds for tags that
    are left out or a list of text, and stores the coerced amount
    rounded to two decimals, whatever its sign; it raises AttributeError
    for tags that are a list with an element that is not text. *)
Theorem add_expense_amount_coercion (amount : pyval) (c ds dt : string) (w : world) :
  match py_float amount with
  | Ok a =>
      (forall tags : option (list string),
          add_expense amount (PStr c) (PStr ds) (PStr dt) (text_tags tags) w
          = (let e := Expense.mk (expense_id_counter w) (PyFloat.round2 a)
                                 (PyStr.lower (PyStr.strip c))
                                 (date_bound (today w) dt)
                                 (PyStr.strip ds)
                                 (map (fun t => PyStr.lower (PyStr.strip t))
                                      (match tags with Some l => l | None => [] end)) in
             (Ok e, stored w e)))
      /\ (forall l : list pyval,
             forallb is_text l = false ->
             add_expense amount (PStr c) (PStr ds) (PStr dt) (PList l) w
             = (Raise AttributeError, skipped w))
  | Raise x =>
      forall tags : pyval,
        add_expense amount (PStr c) (PStr ds) (PStr dt) tags w = (Raise x, skipped w)
  end.
Proof.
  destruct (py_float amount) as [a|x] eqn:Ha.
  - split.
    + intros tags. rewrite add_expense_eq. unfold build_expense. rewrite Ha.
      cbn [and_then py_strip_lower py_strip]. fold (date_bound (today w) dt).
      destruct tags as [[|t l]|]; cbn [text_tags truthy map and_then iterate];
        [reflexivity | | reflexivity].
      change (PStr t :: map PStr l) with (map PStr (t :: l)).
      rewrite map_result_text. reflexivity.
    + intros l Hl. rewrite add_expense_eq. unfold build_expense. rewrite Ha.
      cbn [and_then py_strip_lower py_strip].
      destruct l as [|v l]; [discriminate|]. cbn [truthy iterate and_then].
      now rewrite (map_result_not_text _ Hl).
  - intros tags. rewrite add_expense_eq. unfold build_expense. rewrite Ha. reflexivity.
Qed.

(** C3: successful [add_expense] calls on a fresh store return the ids
    1, 2, 3, ... in order, and each returned record is the stored one. *)
Theorem ids_count_from_one (calls : list add_call) (d : PyDate.ymd) (replies : list reply) :
  Forall (fun o => exists e, o = Ok e) (fst (run_calls calls (fresh d replies))) ->
  fst (run_calls calls (fresh d replies))
  = map Ok (expenses (snd (run_calls calls (fresh d replies))))
  /\ map Expense.id (expenses (snd (run_calls calls (fresh d replies))))
     = count_from 1 (List.length calls).
Proof.
  intros Hall. destruct (run_calls_ids calls (fresh d replies) Hall)
    as (recs & Hout & Hexp & Hids).
  cbn [fresh expenses expense_id_counter app] in Hexp, Hids.
  rewrite Hexp. now split.
Qed.


(** C8: without a credential both adapters answer at once; nothing is
    sent and the world is untouched. *)
Theorem missing_credential (text : string) (w : world) :
  parse_expenses_via_gemini text "" w = (Ok (None, "API Key is missing."), w)
  /\ execute_agent_command text "" w = (Ok (PStr "API Key is missing.", None), w).
Proof. split; reflexivity. Qed.

(** *** Console output and the frame of the read operations *)

Lemma out_nil (w : world) : out w [] = w.
Proof. destruct w. unfold out. cbn. now rewrite app_nil_r. Qed.

Lemma out_out (w : world) (a b : list line) : out (out w a) b = out w (a ++ b).
Proof. unfold out. cbn. now rewrite app_assoc. Qed.

Lemma print_eq (l : line) (w : world) : print l w = (Ok tt, out w [l]).
Proof. reflexivity. Qed.

Lemma print_all_eq (ls : list line) :
  forall w, print_all ls w = (Ok tt, out w ls).
Proof.
  induction ls as [|l rest IH]; intros w; cbn [print_all].
  - unfold ret. now rewrite out_nil.
  - unfold bind. rewrite print_eq, IH, out_out. reflexivity.
Qed.

Lemma list_expenses_eq (data : list expense) (w : world) :
  list_expenses (Some data) w = (Ok tt, out w (listing data)).
Proof.
  unfold list_expenses, bind, ret. destruct data as [|e rest].
  - reflexivity.
  - rewrite !print_eq, print_all_eq, print_eq, !out_out. reflexivity.
Qed.

Lemma filter_true {A} (l : list A) : filter (fun _ => true) l = l.
Proof. induction l as [|x l IH]; cbn; [reflexivity | now rewrite IH]. Qed.

Lemma filter_filter {A} (f g : A -> bool) (l : list A) :
  filter g (filter f l) = filter (fun x => f x && g x) l.
Proof.
  induction l as [|x l IH]; cbn; [reflexivity|].
  destruct (f x); cbn; [destruct (g x)|]; now rewrite IH.
Qed.

Lemma bind_ok {A B} (m : M A) (k : A -> M B) (w w' : world) (a : A) :
  m w = (Ok a, w') -> bind m k w = k a w'.
Proof. intros H. unfold bind. now rewrite H. Qed.

Lemma stage_category (category : option string) (l : list expense) (w : world) :
  (if truthy (crit category)
   then cat_lower <- lift (py_strip_lower (crit category)) ;;
        ret (filter (fun exp => String.eqb (Expense.category exp) cat_lower) l)
   else ret l) w
  = (Ok (filter (category_matches category) l), w).
Proof.
  unfold category_matches, supplied. destruct category as [s|]; cbn.
  - destruct (String.eqb s ""); cbn; unfold ret; [now rewrite filter_true | reflexivity].
  - unfold ret. now rewrite filter_true.
Qed.

Lemma stage_tag (tag : option string) (l : list expense) (w : world) :
  (if truthy (crit tag)
   then tag_lower <- lift (py_strip_lower (crit tag)) ;;
        ret (filter (fun exp => existsb (String.eqb tag_lower) (Expense.tags exp)) l)
   else ret l) w
  = (Ok (filter (tag_matches tag) l), w).
Proof.
  unfold tag_matches, supplied, mem_str. destruct tag as [s|]; cbn.
  - destruct (String.eqb s ""); cbn; unfold ret; [now rewrite filter_true | reflexivity].
  - unfold ret. now rewrite filter_true.
Qed.

Lemma stage_start (start_date : option string) (l : list expense) (w : world) :
  (if truthy (crit start_date)
   then bound <- format_date (crit start_date) ;;
        ret (filter (fun exp => String.leb bound (Expense.date exp)) l)
   else ret l) w
  = (Ok (filter (from_date (today w) start_date) l), w).
Proof.
  unfold from_date, supplied, date_bound. destruct start_date as [s|]; cbn.
  - destruct (String.eqb s ""); cbn; unfold ret; [now rewrite filter_true |].
    unfold bind, today_str, ret. destruct (PyDate.strptime s); reflexivity.
  - unfold ret. now rewrite filter_true.
Qed.

Lemma stage_end (end_date : option string) (l : list expense) (w : world) :
  (if truthy (crit end_date)
   then bound <- format_date (crit end_date) ;;
        ret (filter (fun exp => String.leb (Expense.date exp) bound) l)
   else ret l) w
  = (Ok (filter (to_date (today w) end_date) l), w).
Proof.
  unfold to_date, supplied, date_bound. destruct end_date as [s|]; cbn.
  - destruct (String.eqb s ""); cbn; unfold ret; [now rewrite filter_true |].
    unfold bind, today_str, ret. destruct (PyDate.strptime s); reflexivity.
  - unfold ret. now rewrite filter_true.
Qed.

(** [filter_expenses] on text criteria: the selection is [matches], the
    summary is [report], and only the console changes. *)
Lemma filter_expenses_eq (category tag start_date end_date : option string) (w : world) :
  let sel := filter (matches (today w) category tag start_date end_date) (expenses w) in
  filter_expenses (crit category) (crit tag) (crit start_date) (crit end_date) w
  = (Ok (report sel), out w (LFilterResults (List.length sel) :: listing sel)).
Proof.
  intros sel. unfold filter_expenses.
  erewrite bind_ok by reflexivity.
  erewrite bind_ok by apply stage_category.
  erewrite bind_ok by apply stage_tag.
  erewrite bind_ok by apply stage_start.
  erewrite bind_ok by apply stage_end.
  rewrite !filter_filter.
  change (filter _ (expenses w)) with sel.
  unfold bind. rewrite print_eq, list_expenses_eq, out_out.
  reflexivity.
Qed.



(** C10 (amended): a non-empty date bound is read by [strptime]: a text
    it rejects is replaced by the current date, a text it accepts stands
    for the date it was read as, written by [strftime].  The start bound
    keeps the records dated on that bound or later, the end bound those
    dated on it or earlier. *)
Theorem date_bound_is_read_or_today (category tag other : option string) (s : string)
        (w : world) :
  s <> ""%string ->
  let bound := match PyDate.strptime s with
               | Some d => strftime d
               | None => strftime (today w)
               end in
  let from := filter (fun exp =>
                        matches (today w) category tag None other exp
                        && String.leb bound (Expense.date exp))
                     (expenses w) in
  let to := filter (fun exp =>
                      matches (today w) category tag other None exp
                      && String.leb (Expense.date exp) bound)
                   (expenses w) in
  filter_expenses (crit category) (crit tag) (PStr s) (crit other) w
  = (Ok (report from), out w (LFilterResults (List.length from) :: listing from))
  /\ filter_expenses (crit category) (crit tag) (crit other) (PStr s) w
     = (Ok (report to), out w (LFilterResults (List.length to) :: listing to)).
Proof.
  intros Hs bound from to.
  assert (Hsup : supplied (Some s) = Some s).
  { cbn. destruct (String.eqb_spec s ""); [contradiction | reflexivity]. }
  split.
  - pose proof (filter_expenses_eq category tag (Some s) other w) as E.
    cbn [crit] in E. rewrite E. cbv zeta.
    replace (filter (matches (today w) category tag (Some s) other) (expenses w))
      with from; [reflexivity|].
    apply filter_ext. intros exp. unfold matches, from_date.
    rewrite Hsup. fold (date_bound (today w) s) in bound. cbn [supplied].
    destruct (category_matches category exp), (tag_matches tag exp),
      (String.leb bound (Expense.date exp)) eqn:L,
      (to_date (today w) other exp); unfold bound in L; rewrite L; reflexivity.
  - pose proof (filter_expenses_eq category tag other (Some s) w) as E.
    cbn [crit] in E. rewrite E. cbv zeta.
    replace (filter (matches (today w) category tag other (Some s)) (expenses w))
      with to; [reflexivity|].
    apply filter_ext. intros exp. unfold matches, to_date.
    rewrite Hsup. fold (date_bound (today w) s) in bound. cbn [supplied].
    destruct (category_matches category exp), (tag_matches tag exp),
      (String.leb (Expense.date exp) bound) eqn:L,
      (from_date (today w) other exp); unfold bound in L; rewrite L; reflexivity.
Qed.

(** *** Read operations leave the store alone *)

Lemma prints_ret {A} (a : A) : prints (ret a).
Proof. intros w. exists []. cbn. now rewrite out_nil. Qed.

Lemma prints_raise {A} (e : exn) : prints (@raise A e).
Proof. intros w. exists []. cbn. now rewrite out_nil. Qed.

Lemma prints_lift {A} (r : outcome A) : prints (lift r).
Proof. intros w. exists []. cbn. now rewrite out_nil. Qed.

Lemma prints_read : prints read_expenses.
Proof. intros w. exists []. cbn. now rewrite out_nil. Qed.

Lemma prints_today : prints today_str.
Proof. intros w. exists []. cbn. now rewrite out_nil. Qed.

Lemma prints_print (l : line) : prints (print l).
Proof. intros w. exists [l]. reflexivity. Qed.

Lemma prints_bind {A B} (m : M A) (k : A -> M B) :
  prints m -> (forall a, prints (k a)) -> prints (bind m k).
Proof.
  intros Hm Hk w. unfold bind. destruct (Hm w) as [ls Hls].
  destruct (m w) as [[a|e] w1]; cbn [snd] in *; subst w1.
  - destruct (Hk a (out w ls)) as [ls' Hls']. exists (ls ++ ls').
    now rewrite Hls', out_out.
  - now exists ls.
Qed.

Lemma prints_if {A} (b : bool) (m1 m2 : M A) :
  prints m1 -> prints m2 -> prints (if b then m1 else m2).
Proof. now destruct b. Qed.

Lemma prints_format_date (v : pyval) : prints (format_date v).
Proof.
  unfold format_date. destruct v; try apply prints_raise.
  destruct (PyDate.strptime s); [apply prints_ret | apply prints_today].
Qed.

Lemma prints_print_all (ls : list line) : prints (print_all ls).
Proof. intros w. exists ls. now rewrite print_all_eq. Qed.

Create HintDb prints_db.
#[local] Hint Resolve prints_ret prints_raise prints_lift prints_read prints_today
     prints_print prints_format_date prints_print_all : prints_db.

Ltac prints_step :=
  repeat first
    [ solve [auto with prints_db]
    | apply prints_if
    | apply prints_bind; [|intros] ].

Lemma prints_list_expenses (l : option (list expense)) : prints (list_expenses l).
Proof.
  unfold list_expenses. apply prints_bind.
  - destruct l; auto with prints_db.
  - intros [|e rest]; prints_step.
Qed.

#[local] Hint Resolve prints_list_expenses : prints_db.

Lemma prints_filter_expenses (category tag start_date end_date : pyval) :
  prints (filter_expenses category tag start_date end_date).
Proof.
  unfold filter_expenses. prints_step.
Qed.

Lemma prints_create_dataframe : prints create_dataframe.
Proof.
  unfold create_dataframe. apply prints_bind; [auto with prints_db|].
  intros [|e rest]; prints_step.
Qed.

Lemma prints_plot_category_distribution : prints plot_category_distribution.
Proof.
  unfold plot_category_distribution.
  apply prints_bind; [apply prints_create_dataframe|].
  intros [[|r rows]|]; apply prints_ret.
Qed.

Lemma prints_plot_spending_trend : prints plot_spending_trend.
Proof.
  unfold plot_spending_trend.
  apply prints_bind; [apply prints_create_dataframe|].
  intros [[|r rows]|]; apply prints_ret.
Qed.

Lemma prints_store {A} (m : M A) (w : world) :
  prints m ->
  expenses (snd (m w)) = expenses w
  /\ expense_id_counter (snd (m w)) = expense_id_counter w.
Proof. intros H. destruct (H w) as [ls Hls]. rewrite Hls. now split. Qed.

(** C9: the read operations leave the records and the id counter as
    they were, and [add_expense] keeps every record it found, adding at
    most one after them. *)
Theorem reads_leave_store (w : world) :
  (forall category tag start_date end_date,
      let w' := snd (filter_expenses category tag start_date end_date w) in
      expenses w' = expenses w /\ expense_id_counter w' = expense_id_counter w)
  /\ (let w' := snd (plot_category_distribution w) in
      expenses w' = expenses w /\ expense_id_counter w' = expense_id_counter w)
  /\ (let w' := snd (plot_spending_trend w) in
      expenses w' = expenses w /\ expense_id_counter w' = expense_id_counter w)
  /\ (forall l,
      let w' := snd (list_expenses l w) in
      expenses w' = expenses w /\ expense_id_counter w' = expense_id_counter w)
  /\ (forall amount category description date tags,
      let r := add_expense amount category description date tags w in
      match fst r with
      | Ok e => expenses (snd r) = expenses w ++ [e]
      | Raise _ => expenses (snd r) = expenses w
      end).
Proof.
  repeat split.
  - apply (prints_store _ w (prints_filter_expenses category tag start_date end_date)).
  - apply (prints_store _ w (prints_filter_expenses category tag start_date end_date)).
  - apply (prints_store _ w prints_plot_category_distribution).
  - apply (prints_store _ w prints_plot_category_distribution).
  - apply (prints_store _ w prints_plot_spending_trend).
  - apply (prints_store _ w prints_plot_spending_trend).
  - apply (prints_store _ w (prints_list_expenses l)).
  - apply (prints_store _ w (prints_list_expenses l)).
  - intros. subst r. rewrite add_expense_eq.
    destruct (build_expense _ _ _ _ _ _ _); reflexivity.
Qed.

(** *** The structured-generation call *)

(** The opening every call shares: post, status check, body, text. *)
Lemma opening_eq {B} (req : request) (k : pyval -> M B) (w : world) :
  (response <- requests_post req ;;
   lift (raise_for_status response) ;;;
   result <- lift (response_json response) ;;
   raw <- lift (candidate_text result) ;;
   k raw) w
  = match next_reply w with
    | Ok raw => k raw (posted w req)
    | Raise e => (Raise e, posted w req)
    end.
Proof.
  unfold bind, requests_post, next_reply, reply_text, lift, posted.
  destruct (inbox w) as [|[|resp] rest]; cbn [tl]; try reflexivity.
  destruct (raise_for_status resp) as [[]|e]; cbn [and_then]; [|reflexivity].
  destruct (response_json resp) as [result|e]; cbn [and_then]; [|reflexivity].
  destruct (candidate_text result) as [raw|e]; reflexivity.
Qed.

Lemma key_present (api_key : string) :
  api_key <> ""%string -> String.eqb api_key "" = false.
Proof. intros H. now apply String.eqb_neq. Qed.

(** *** The extraction adapter *)

Lemma item_record_inserts (d : PyDate.ymd) (i : Z) (item : pyval) :
  match item_record d i item with
  | Ok _ => inserts d item = true
  | Raise _ => inserts d item = false
  end.
Proof.
  unfold inserts, item_record, build_expense.
  destruct item as [| | | | | |kv]; try reflexivity.
  destruct (py_float _); cbn [and_then]; [|reflexivity].
  destruct (py_strip_lower _); cbn [and_then]; [|reflexivity].
  destruct (match assoc "date" kv with Some x => x | None => _ end);
    cbn [and_then]; try reflexivity.
  destruct (py_strip _); cbn [and_then]; reflexivity.
Qed.

Lemma add_item_eq (item : pyval) (w : world) :
  add_item item w =
  match item with
  | PDict _ =>
      match item_record (today w) (expense_id_counter w) item with
      | Ok e => (Ok e, stored w e)
      | Raise x => (Raise x, skipped w)
      end
  | _ => (Raise AttributeError, w)
  end.
Proof.
  unfold add_item. destruct item; try reflexivity.
  unfold bind, lift, dict_get, today_str. rewrite add_expense_eq. reflexivity.
Qed.

Lemma length_inserted (d : PyDate.ymd) (items : list pyval) :
  forall i, List.length (inserted d i items) = List.length (ok_prefix d items).
Proof.
  induction items as [|item rest IH]; intros i; cbn; [reflexivity|].
  pose proof (item_record_inserts d i item) as H.
  destruct (item_record d i item); rewrite H; cbn; [now rewrite IH | reflexivity].
Qed.

(** The loop: the records of the leading insertable elements are
    appended; it ends normally when every element is insertable and
    with an exception otherwise. *)
Lemma add_items_eq (items : list pyval) :
  forall (n : Z) (w : world),
    let r := add_items items n w in
    expenses (snd r) = expenses w ++ inserted (today w) (expense_id_counter w) items
    /\ today (snd r) = today w
    /\ (if forallb (inserts (today w)) items
        then fst r = Ok (n + Z.of_nat (List.length items))
        else exists e, fst r = Raise e).
Proof.
  induction items as [|item rest IH]; intros n w; cbn zeta.
  - cbn. rewrite app_nil_r, Z.add_0_r. auto.
  - cbn [add_items inserted forallb]. unfold bind. rewrite add_item_eq.
    pose proof (item_record_inserts (today w) (expense_id_counter w) item) as Hi.
    destruct item as [| | | | | |kv].
    1-6: cbn; rewrite app_nil_r; eauto.
    destruct (item_record (today w) (expense_id_counter w) (PDict kv)) as [e|x];
      rewrite Hi; cbn [andb].
    + specialize (IH (n + 1) (stored w e)). cbn zeta in IH.
      destruct IH as (He & Ht & Hf). cbn [stored today expenses expense_id_counter] in *.
      rewrite He, Ht. repeat split.
      * now rewrite <- app_assoc.
      * destruct (forallb (inserts (today w)) rest); [|assumption].
        rewrite Hf. f_equal. cbn [List.length]. rewrite Nat2Z.inj_succ. lia.
    + cbn. rewrite app_nil_r. eauto.
Qed.

(** [parse_expenses_via_gemini] once the endpoint has answered with the
    text [t]. *)
Lemma parse_eq (text api_key t : string) (w : world) :
  api_key <> ""%string ->
  next_text w = Ok t ->
  parse_expenses_via_gemini text api_key w =
  let w1 := posted w (mk_request (endpoint api_key) text
                                 (Some expense_system_prompt) (Some ExpenseArraySchema)) in
  match json_loads t with
  | Some (PList items) =>
      match add_items items 0 w1 with
      | (Ok n, w2) =>
          (Ok (Some items,
               ("Successfully parsed and added " ++ PyStr.of_Z n ++ " expenses.")%string), w2)
      | (Raise e, w2) =>
          (Ok (None, ("An error occurred during parsing: " ++ str_exn e)%string),
           out w2 [LParseError e])
      end
  | Some _ =>
      (Ok (None, ("⚠️ Gemini returned non-list JSON: " ++ t)%string), w1)
  | None =>
      (Ok (None, ("An error occurred during parsing: " ++ str_exn JSONDecodeError)%string),
       out w1 [LParseError JSONDecodeError])
  end.
Proof.
  intros Hk Ht. unfold parse_expenses_via_gemini.
  rewrite (key_present _ Hk). unfold try_except. rewrite opening_eq.
  unfold next_text in Ht.
  destruct (next_reply w) as [raw|e]; cbn [and_then] in Ht; [|discriminate].
  unfold bind at 1. unfold lift at 1. rewrite Ht.
  unfold bind at 1. unfold lift at 1. unfold loads.
  destruct (json_loads t) as [v|]; [|reflexivity].
  destruct v as [| | | | |items|]; try reflexivity.
  cbv zeta. unfold bind at 1.
  destruct (add_items items 0 _) as [[n|e] w2]; reflexivity.
Qed.

(** C1 (amended): a response that is not JSON or not a JSON array is
    reported as a failure and leaves the store as it was; an array is
    committed element by element, so when one of its elements cannot be
    inserted the failure is reported and the records of the elements in
    front of it stay in the store. *)
Theorem parse_commits_leading_items (text api_key t : string) (w : world) :
  api_key <> ""%string ->
  next_text w = Ok t ->
  let r := parse_expenses_via_gemini text api_key w in
  match json_loads t with
  | Some (PList items) =>
      expenses (snd r)
      = expenses w ++ inserted (today w) (expense_id_counter w) items
      /\ List.length (inserted (today w) (expense_id_counter w) items)
         = List.length (ok_prefix (today w) items)
      /\ (if forallb (inserts (today w)) items
          then fst r = Ok (Some items,
                           ("Successfully parsed and added "
                            ++ PyStr.of_Z (Z.of_nat (List.length items))
                            ++ " expenses.")%string)
          else exists e,
              fst r = Ok (None, ("An error occurred during parsing: " ++ str_exn e)%string))
  | Some _ =>
      fst r = Ok (None, ("⚠️ Gemini returned non-list JSON: " ++ t)%string)
      /\ expenses (snd r) = expenses w
      /\ expense_id_counter (snd r) = expense_id_counter w
  | None =>
      fst r = Ok (None, ("An error occurred during parsing: "
                         ++ str_exn JSONDecodeError)%string)
      /\ expenses (snd r) = expenses w
      /\ expense_id_counter (snd r) = expense_id_counter w
  end.
Proof.
  intros Hk Ht r. subst r. rewrite (parse_eq text api_key t w Hk Ht). cbv zeta.
  destruct (json_loads t) as [v|]; [|cbn; auto].
  destruct v as [| | | | |items|]; try solve [cbn; auto].
  set (w1 := posted w _).
  destruct (add_items_eq items 0 w1) as (He & _ & Hf).
  change (today w1) with (today w) in *.
  change (expenses w1) with (expenses w) in *.
  change (expense_id_counter w1) with (expense_id_counter w) in *.
  destruct (add_items items 0 w1) as [[n|e] w2]; cbn [fst snd] in *.
  - split; [assumption|]. split; [apply length_inserted|].
    destruct (forallb (inserts (today w)) items).
    + inversion Hf. reflexivity.
    + destruct Hf as [e Hf]. discriminate.
  - split; [cbn; assumption|]. split; [apply length_inserted|].
    destruct (forallb (inserts (today w)) items).
    + discriminate.
    + exists e. reflexivity.
Qed.

(** *** The intent resolver *)

Lemma tool_names (intent : string) :
  mem_str intent ["filter"; "plot_distribution"; "plot_trend"] = true ->
  intent = "filter"%string \/ intent = "plot_distribution"%string
  \/ intent = "plot_trend"%string.
Proof.
  unfold mem_str. cbn [existsb]. rewrite !orb_true_iff, !String.eqb_eq.
  intuition discriminate.
Qed.

Lemma not_a_tool (intent : string) :
  mem_str intent ["filter"; "plot_distribution"; "plot_trend"] = false ->
  assoc intent TOOL_MAP = None.
Proof.
  unfold mem_str, TOOL_MAP. cbn [existsb assoc].
  destruct (String.eqb intent "filter"); [discriminate|].
  destruct (String.eqb intent "plot_distribution"); [discriminate|].
  destruct (String.eqb intent "plot_trend"); [discriminate|].
  reflexivity.
Qed.

(** Unfolds [execute_agent_command] up to the dispatch on the intent. *)
Ltac resolve_intent Hk Ht Hv Hi :=
  unfold execute_agent_command; rewrite (key_present _ Hk); cbv zeta;
  unfold try_except; rewrite opening_eq;
  unfold next_text in Ht;
  destruct (next_reply _) as [raw|e0]; cbn [and_then] in Ht; [|discriminate];
  unfold bind at 1; unfold lift at 1; rewrite Ht;
  unfold bind at 1; unfold lift at 1; unfold loads; rewrite Hv;
  unfold resolved_intent in Hi;
  unfold bind at 1; unfold lift at 1; rewrite Hi;
  match goal with
  | v : pyval |- _ =>
      match type of Hi with
      | context [dict_get v] => destruct v; try discriminate Hi
      end
  end;
  unfold bind at 1; unfold lift at 1; cbn [intent_args].

Lemma create_dataframe_eq (w : world) :
  expenses w <> [] ->
  create_dataframe w = (Ok (Some (kept_rows (expenses w))), w).
Proof.
  intros H. unfold create_dataframe, bind, read_expenses.
  destruct (expenses w); [contradiction | reflexivity].
Qed.

Lemma exec_empty_store (text api_key t : string) (v : pyval) (intent : string)
      (w : world) :
  api_key <> ""%string ->
  next_text w = Ok t ->
  json_loads t = Some v ->
  resolved_intent v = Ok intent ->
  mem_str intent ["filter"; "plot_distribution"; "plot_trend"] = true ->
  expenses w = [] ->
  execute_agent_command text api_key w
  = (Ok (PStr ("Tool '" ++ intent
               ++ "' could not run. No expenses have been added yet.")%string, None),
     posted w (intent_request text api_key)).
Proof.
  intros Hk Ht Hv Hi Hm He. resolve_intent Hk Ht Hv Hi.
  fold (intent_request text api_key).
  destruct (tool_names _ Hm) as [-> | [-> | ->]];
    cbn [assoc TOOL_MAP String.eqb Ascii.eqb Bool.eqb];
    unfold bind at 1; unfold read_expenses at 1;
    cbn [expenses posted]; rewrite He; reflexivity.
Qed.

Lemma exec_plot_distribution (text api_key t : string) (v : pyval) (w : world) :
  api_key <> ""%string ->
  next_text w = Ok t ->
  json_loads t = Some v ->
  resolved_intent v = Ok "plot_distribution"%string ->
  expenses w <> [] ->
  execute_agent_command text api_key w
  = (match kept_rows (expenses w) with
     | [] => Ok (PStr "❌ Charting Failed: Not enough data to generate category distribution chart.",
                 None)
     | rows =>
         Ok (PStr "✅ Done! Chart generated successfully.",
             Some (Pie (groupby_sum String.ltb String.eqb
                          (map (fun r => (Expense.category (fst r), Expense.amount (fst r)))
                               rows))))
     end,
     posted w (intent_request text api_key)).
Proof.
  intros Hk Ht Hv Hi He. resolve_intent Hk Ht Hv Hi.
  fold (intent_request text api_key).
  cbn [assoc TOOL_MAP String.eqb Ascii.eqb Bool.eqb].
  unfold bind at 1. unfold read_expenses at 1. cbn [expenses posted].
  destruct (expenses w) as [|e rest] eqn:Hexp; [contradiction|].
  unfold bind at 1. unfold plot_category_distribution.
  unfold bind at 1. rewrite create_dataframe_eq by (cbn; now rewrite Hexp).
  cbn [expenses posted]. rewrite Hexp.
  destruct (kept_rows (e :: rest)); reflexivity.
Qed.

Lemma exec_fallback (text api_key t : string) (v : pyval) (intent : string)
      (w : world) :
  api_key <> ""%string ->
  next_text w = Ok t ->
  json_loads t = Some v ->
  resolved_intent v = Ok intent ->
  intent = "none"%string \/ intent = "unhandled"%string ->
  execute_agent_command text api_key w
  = let w1 := posted w (intent_request text api_key) in
    let w2 := posted w1 (natural_request text api_key) in
    match next_reply w1 with
    | Ok reply_msg => (Ok (reply_msg, None), w2)
    | Raise e =>
        (Ok (PStr ("An internal error occurred: " ++ str_exn e)%string, None),
         out w2 [LFatal e])
    end.
Proof.
  intros Hk Ht Hv Hi Hn. resolve_intent Hk Ht Hv Hi.
  fold (intent_request text api_key). fold (natural_request text api_key).
  destruct Hn as [-> | ->];
    cbn [assoc TOOL_MAP String.eqb Ascii.eqb Bool.eqb orb];
    rewrite opening_eq;
    destruct (next_reply (posted w (intent_request text api_key))); reflexivity.
Qed.

Lemma exec_unmapped (text api_key t : string) (v : pyval) (intent : string)
      (w : world) :
  api_key <> ""%string ->
  next_text w = Ok t ->
  json_loads t = Some v ->
  resolved_intent v = Ok intent ->
  mem_str intent ["filter"; "plot_distribution"; "plot_trend"] = false ->
  String.eqb intent "none" || String.eqb intent "unhandled" = false ->
  execute_agent_command text api_key w
  = (Ok (PStr ("Agent could not map '" ++ intent ++ "' to an action.")%string, None),
     posted w (intent_request text api_key)).
Proof.
  intros Hk Ht Hv Hi Hm Hn. resolve_intent Hk Ht Hv Hi.
  fold (intent_request text api_key).
  rewrite (not_a_tool _ Hm), Hn. reflexivity.
Qed.

(** C6 (amended): for the intents filter, plot_distribution and
    plot_trend an empty store gives the message that no expenses were
    added, no chart, and a world in which only the request went out: no
    tool ran.  On a non-empty store plot_distribution runs the category
    aggregation over the rows the DataFrame keeps and returns the chart
    when there is such a row, the charting failure otherwise. *)
Theorem dispatch_needs_records (text api_key t : string) (v : pyval) (intent : string)
        (w : world) :
  api_key <> ""%string ->
  next_text w = Ok t ->
  json_loads t = Some v ->
  resolved_intent v = Ok intent ->
  mem_str intent ["filter"; "plot_distribution"; "plot_trend"] = true ->
  match expenses w with
  | [] =>
      execute_agent_command text api_key w
      = (Ok (PStr ("Tool '" ++ intent
                   ++ "' could not run. No expenses have been added yet.")%string, None),
         posted w (intent_request text api_key))
  | _ :: _ =>
      intent = "plot_distribution"%string ->
      execute_agent_command text api_key w
      = (match kept_rows (expenses w) with
         | [] =>
             Ok (PStr "❌ Charting Failed: Not enough data to generate category distribution chart.",
                 None)
         | rows =>
             Ok (PStr "✅ Done! Chart generated successfully.",
                 Some (Pie (groupby_sum String.ltb String.eqb
                              (map (fun r => (Expense.category (fst r),
                                              Expense.amount (fst r))) rows))))
         end,
         posted w (intent_request text api_key))
  end.
Proof.
  intros Hk Ht Hv Hi Hm.
  destruct (expenses w) as [|e rest] eqn:Hexp.
  - now apply (exec_empty_store text api_key t v intent w).
  - intros ->.
    assert (Hne : expenses w <> []) by (rewrite Hexp; discriminate).
    pose proof (exec_plot_distribution text api_key t v w Hk Ht Hv Hi Hne) as E.
    now rewrite Hexp in E.
Qed.

(** C7 (amended): a label that is none or unhandled after lower-casing
    makes the second, unconstrained call and its reply is the message,
    with no chart (a failure of that call is reported as an internal
    error); any other label that names no tool is answered at once, with
    no second call and no chart. *)
Theorem fallback_for_none_only (text api_key t : string) (v : pyval) (intent : string)
        (w : world) :
  api_key <> ""%string ->
  next_text w = Ok t ->
  json_loads t = Some v ->
  resolved_intent v = Ok intent ->
  mem_str intent ["filter"; "plot_distribution"; "plot_trend"] = false ->
  let r := execute_agent_command text api_key w in
  let w1 := posted w (intent_request text api_key) in
  if String.eqb intent "none" || String.eqb intent "unhandled"
  then
    sent (snd r) = sent w ++ [intent_request text api_key; natural_request text api_key]
    /\ fst r = match next_reply w1 with
               | Ok reply_msg => Ok (reply_msg, None)
               | Raise e =>
                   Ok (PStr ("An internal error occurred: " ++ str_exn e)%string, None)
               end
  else
    r = (Ok (PStr ("Agent could not map '" ++ intent ++ "' to an action.")%string, None), w1)
    /\ sent (snd r) = sent w ++ [intent_request text api_key].
Proof.
  intros Hk Ht Hv Hi Hm r w1.
  destruct (String.eqb intent "none" || String.eqb intent "unhandled") eqn:Hn.
  - assert (Hor : intent = "none"%string \/ intent = "unhandled"%string).
    { apply orb_true_iff in Hn. now rewrite !String.eqb_eq in Hn. }
    subst r. rewrite (exec_fallback text api_key t v intent w Hk Ht Hv Hi Hor).
    cbv zeta. fold w1.
    destruct (next_reply w1); cbn; rewrite <- app_assoc; split; reflexivity.
  - subst r. rewrite (exec_unmapped text api_key t v intent w Hk Ht Hv Hi Hm Hn).
    split; reflexivity.
Qed.

(** *** Text normalisation *)

Lemma is_space_lower_char (c : ascii) :
  PyStr.is_space (PyStr.lower_char c) = PyStr.is_space c.
Proof. destruct c as [[] [] [] [] [] [] [] []]; reflexivity. Qed.

Lemma lower_char_idem (c : ascii) :
  PyStr.lower_char (PyStr.lower_char c) = PyStr.lower_char c.
Proof. destruct c as [[] [] [] [] [] [] [] []]; reflexivity. Qed.

Lemma lower_idem (s : string) : PyStr.lower (PyStr.lower s) = PyStr.lower s.
Proof.
  induction s as [|c s IH]; cbn; [reflexivity|].
  now rewrite lower_char_idem, IH.
Qed.

Lemma lower_lstrip (s : string) :
  PyStr.lower (PyStr.lstrip s) = PyStr.lstrip (PyStr.lower s).
Proof.
  induction s as [|c s IH]; cbn; [reflexivity|].
  rewrite is_space_lower_char. destruct (PyStr.is_space c); [exact IH | reflexivity].
Qed.

Lemma lower_rev_onto (s acc : string) :
  PyStr.lower (PyStr.rev_onto s acc) = PyStr.rev_onto (PyStr.lower s) (PyStr.lower acc).
Proof.
  revert acc. induction s as [|c s IH]; intros acc; cbn; [reflexivity|].
  now rewrite IH.
Qed.

Lemma lower_strip (s : string) :
  PyStr.lower (PyStr.strip s) = PyStr.strip (PyStr.lower s).
Proof.
  unfold PyStr.strip, PyStr.rstrip, PyStr.rev.
  now rewrite lower_rev_onto, lower_lstrip, lower_rev_onto, lower_lstrip.
Qed.

Lemma append_nil_r (s : string) : (s ++ "")%string = s.
Proof. induction s as [|c s IH]; cbn; [reflexivity | now rewrite IH]. Qed.

Lemma append_assoc (a b c : string) : ((a ++ b) ++ c = a ++ (b ++ c))%string.
Proof. induction a as [|x a IH]; cbn; [reflexivity | now rewrite IH]. Qed.

Lemma rev_onto_app (s acc : string) :
  PyStr.rev_onto s acc = (PyStr.rev s ++ acc)%string.
Proof.
  unfold PyStr.rev. revert acc. induction s as [|c s IH]; intros acc; cbn; [reflexivity|].
  rewrite IH, (IH (String c "")), append_assoc. reflexivity.
Qed.

Lemma rev_cons (c : ascii) (s : string) :
  PyStr.rev (String c s) = (PyStr.rev s ++ String c "")%string.
Proof. unfold PyStr.rev at 1. cbn. apply rev_onto_app. Qed.

Lemma rev_app (a b : string) :
  PyStr.rev (a ++ b) = (PyStr.rev b ++ PyStr.rev a)%string.
Proof.
  induction a as [|c a IH]; cbn [append].
  - change (PyStr.rev "") with EmptyString. now rewrite append_nil_r.
  - rewrite !rev_cons, IH, append_assoc. reflexivity.
Qed.

Lemma rev_rev (s : string) : PyStr.rev (PyStr.rev s) = s.
Proof.
  induction s as [|c s IH]; [reflexivity|].
  rewrite rev_cons, rev_app, IH. reflexivity.
Qed.

Lemma lstrip_fixed (s : string) :
  PyStr.lstrip (PyStr.lstrip s) = PyStr.lstrip s.
Proof.
  induction s as [|c s IH]; cbn; [reflexivity|].
  destruct (PyStr.is_space c) eqn:E; [exact IH|]. cbn. now rewrite E.
Qed.

Lemma lstrip_snoc (a : string) (c : ascii) :
  PyStr.lstrip (a ++ String c "") =
  match PyStr.lstrip a with
  | EmptyString => if PyStr.is_space c then EmptyString else String c EmptyString
  | r => (r ++ String c "")%string
  end.
Proof.
  induction a as [|x a IH]; cbn; [reflexivity|].
  destruct (PyStr.is_space x); [exact IH | reflexivity].
Qed.

(** [rstrip] read from the front of the text. *)
Lemma rstrip_cons (c : ascii) (s : string) :
  PyStr.rstrip (String c s) =
  match PyStr.rstrip s with
  | EmptyString => if PyStr.is_space c then EmptyString else String c EmptyString
  | r => String c r
  end.
Proof.
  unfold PyStr.rstrip. rewrite rev_cons, lstrip_snoc.
  destruct (PyStr.lstrip (PyStr.rev s)) as [|x r] eqn:E.
  - cbn. destruct (PyStr.is_space c); reflexivity.
  - rewrite rev_app. change (PyStr.rev (String c "")) with (String c "").
    cbn [append]. destruct (PyStr.rev (String x r)) eqn:E2; [|reflexivity].
    apply (f_equal PyStr.rev) in E2. rewrite rev_rev in E2. discriminate.
Qed.

Lemma lstrip_rstrip_lstrip (s : string) :
  PyStr.lstrip (PyStr.rstrip (PyStr.lstrip s)) = PyStr.rstrip (PyStr.lstrip s).
Proof.
  induction s as [|c s IH]; [reflexivity|]. cbn [PyStr.lstrip].
  destruct (PyStr.is_space c) eqn:E; [exact IH|].
  rewrite rstrip_cons, E. destruct (PyStr.rstrip s); cbn; now rewrite E.
Qed.

Lemma rstrip_fixed (s : string) : PyStr.rstrip (PyStr.rstrip s) = PyStr.rstrip s.
Proof. unfold PyStr.rstrip. now rewrite rev_rev, lstrip_fixed. Qed.

Lemma strip_idem (s : string) : PyStr.strip (PyStr.strip s) = PyStr.strip s.
Proof.
  unfold PyStr.strip. now rewrite lstrip_rstrip_lstrip, rstrip_fixed.
Qed.

Lemma strip_lower_idem (s : string) :
  PyStr.lower (PyStr.strip (PyStr.lower (PyStr.strip s))) = PyStr.lower (PyStr.strip s).
Proof. now rewrite <- lower_strip, strip_idem, lower_idem. Qed.

(** *** Dates: reading back what was written *)

Lemma in_upto (n : nat) (z : Z) : 1 <= z <= Z.of_nat n -> In z (upto n).
Proof.
  intros H. unfold upto. apply in_map_iff. exists (Z.to_nat z). split.
  - apply Z2Nat.id. lia.
  - apply in_seq. lia.
Qed.

Lemma year_ok_all : forallb year_ok (upto 9999) = true.
Proof. vm_compute. reflexivity. Qed.

Lemma month_day_ok_all :
  forallb (fun m => forallb (month_day_ok m) (upto 31)) (upto 12) = true.
Proof. vm_compute. reflexivity. Qed.

Lemma year_ok_range (y : Z) : 1 <= y <= 9999 -> year_ok y = true.
Proof.
  intros H. pose proof year_ok_all as A. rewrite forallb_forall in A.
  apply A, in_upto. cbn. lia.
Qed.

Lemma month_day_ok_range (m d : Z) :
  1 <= m <= 12 -> 1 <= d <= 31 -> month_day_ok m d = true.
Proof.
  intros Hm Hd. pose proof month_day_ok_all as A. rewrite forallb_forall in A.
  specialize (A m (in_upto 12 m ltac:(cbn; lia))). rewrite forallb_forall in A.
  apply A, in_upto. cbn. lia.
Qed.

Lemma first_match_ext {A B} (alts : list A) (k1 k2 : A -> option B) :
  (forall a, k1 a = k2 a) ->
  PyDate.first_match alts k1 = PyDate.first_match alts k2.
Proof.
  intros H. induction alts as [|a alts IH]; cbn; [reflexivity|].
  now rewrite H, IH.
Qed.

Lemma first_match_map {A B C} (f : B -> C) (alts : list A) (k : A -> option B) :
  PyDate.first_match alts (fun a => option_map f (k a))
  = option_map f (PyDate.first_match alts k).
Proof.
  induction alts as [|a alts IH]; cbn; [reflexivity|].
  destruct (k a); cbn; [reflexivity | exact IH].
Qed.

(** The matcher on a text that starts with four digits and a dash. *)
Lemma regex_match_md (a b c e : ascii) (r0 : string) :
  PyDate.is_digit a = true -> PyDate.is_digit b = true ->
  PyDate.is_digit c = true -> PyDate.is_digit e = true ->
  PyDate.regex_match (String a (String b (String c (String e (String "-" r0)))))
  = option_map
      (fun p : Z * Z * string =>
         (PyDate.mk_ymd (1000 * PyDate.digit a + 100 * PyDate.digit b
                         + 10 * PyDate.digit c + PyDate.digit e)
                        (fst (fst p)) (snd (fst p)), snd p))
      (match_md r0).
Proof.
  intros Ha Hb Hc He. unfold PyDate.regex_match, match_md.
  rewrite Ha, Hb, Hc, He. cbn [andb Ascii.eqb Bool.eqb].
  rewrite <- first_match_map. apply first_match_ext. intros [m r1].
  destruct r1 as [|dash2 r2]; [reflexivity|].
  destruct (Ascii.eqb dash2 "-"); [|reflexivity].
  rewrite <- first_match_map. apply first_match_ext. intros [d r3]. reflexivity.
Qed.

Lemma days_in_month_le (y m : Z) : PyDate.days_in_month y m <= 31.
Proof.
  unfold PyDate.days_in_month.
  repeat match goal with |- context [if ?b then _ else _] => destruct b end; lia.
Qed.

Lemma strptime_valid (s : string) (d : PyDate.ymd) :
  PyDate.strptime s = Some d -> PyDate.valid d = true.
Proof.
  unfold PyDate.strptime.
  destruct (PyDate.regex_match s) as [[d' [|c r]]|]; try discriminate.
  destruct (PyDate.valid d') eqn:E; [|discriminate].
  intros H. inversion H. now subst.
Qed.

Lemma year_text_pad4 (y : Z) :
  four_digits y = true -> PyDate.year_text (Lib.pads_year lib) y = PyDate.pad4 y.
Proof.
  unfold four_digits, PyDate.year_text. destruct (Lib.pads_year lib); [reflexivity|].
  cbn [orb]. rewrite Z.leb_le. intros H. unfold PyDate.pad4.
  destruct (Z.ltb_spec y 10); [lia|]. destruct (Z.ltb_spec y 100); [lia|].
  destruct (Z.ltb_spec y 1000); [lia|]. reflexivity.
Qed.

(** A date written with a four-digit year is read back as itself. *)
Lemma strptime_strftime_valid (d : PyDate.ymd) :
  PyDate.valid d = true -> four_digits (PyDate.year d) = true ->
  PyDate.strptime (strftime d) = Some d.
Proof.
  intros Hv H4. destruct d as [y m dd]. pose proof Hv as Hv'.
  unfold PyDate.valid in Hv. cbn [PyDate.year PyDate.month PyDate.day] in Hv, H4.
  rewrite !andb_true_iff, !Z.leb_le in Hv.
  destruct Hv as (((((Hy1 & Hy2) & Hm1) & Hm2) & Hd1) & Hd2).
  pose proof (days_in_month_le y m) as Hd3.
  pose proof (year_ok_range y (conj Hy1 Hy2)) as Hy.
  pose proof (month_day_ok_range m dd (conj Hm1 Hm2) ltac:(lia)) as Hmd.
  unfold PyDate.strftime. cbn [PyDate.year PyDate.month PyDate.day].
  rewrite (year_text_pad4 y H4).
  unfold year_ok in Hy.
  destruct (PyDate.pad4 y) as [|a [|b [|c [|e [|x r]]]]]; try discriminate.
  rewrite !andb_true_iff, Z.eqb_eq in Hy.
  destruct Hy as ((((Ha & Hb) & Hc) & He) & Hval).
  cbn [append]. unfold PyDate.strptime.
  rewrite (regex_match_md a b c e _ Ha Hb Hc He), Hval.
  unfold month_day_ok in Hmd.
  destruct (match_md _) as [[[m' d'] [|x r]]|]; try discriminate.
  rewrite andb_true_iff, !Z.eqb_eq in Hmd. destruct Hmd as [-> ->].
  cbn [option_map fst snd]. now rewrite Hv'.
Qed.

Lemma non_digit_within_dash (n : nat) (s r : string) :
  non_digit_within n (s ++ "-") = true -> non_digit_within n (s ++ String "-" r) = true.
Proof.
  revert n. induction s as [|a s IH]; intros [|n]; cbn; try discriminate.
  - reflexivity.
  - destruct (PyDate.is_digit a); cbn [negb orb]; [apply IH | reflexivity].
Qed.

Lemma non_digit_within_rejected (s : string) :
  non_digit_within 4 s = true -> PyDate.regex_match s = None.
Proof.
  destruct s as [|a [|b [|c [|e [|x r]]]]]; try reflexivity.
  cbn [non_digit_within]. unfold PyDate.regex_match.
  destruct (PyDate.is_digit a), (PyDate.is_digit b), (PyDate.is_digit c),
    (PyDate.is_digit e); cbn [negb orb andb]; try reflexivity; discriminate.
Qed.

Lemma short_year_all :
  forallb (fun y => non_digit_within 4 (PyStr.of_Z y ++ "-")) (upto 999) = true.
Proof. vm_compute. reflexivity. Qed.

(** A date whose year is written with fewer than four digits is not
    read back at all. *)
Lemma strptime_strftime_short (d : PyDate.ymd) :
  PyDate.valid d = true -> four_digits (PyDate.year d) = false ->
  PyDate.strptime (strftime d) = None.
Proof.
  intros Hv H4. destruct d as [y m dd].
  unfold PyDate.valid in Hv. cbn [PyDate.year PyDate.month PyDate.day] in Hv, H4.
  rewrite !andb_true_iff, !Z.leb_le in Hv.
  destruct Hv as (((((Hy1 & Hy2) & Hm1) & Hm2) & Hd1) & Hd2).
  unfold four_digits in H4. apply orb_false_iff in H4. destruct H4 as [Hp H4].
  apply Z.leb_gt in H4.
  unfold PyDate.strftime, PyDate.year_text. rewrite Hp.
  cbn [PyDate.year PyDate.month PyDate.day].
  pose proof short_year_all as A. rewrite forallb_forall in A.
  specialize (A y (in_upto 999 y ltac:(cbn; lia))).
  unfold PyDate.strptime.
  match goal with
  | |- context [PyDate.regex_match ?t] =>
      replace (PyDate.regex_match t) with (@None (PyDate.ymd * string));
      [reflexivity | symmetry; apply non_digit_within_rejected;
                     exact (non_digit_within_dash 4 _ _ A)]
  end.
Qed.


(** What [format_date] returns on text. *)
Lemma format_date_eq (s : string) (w : world) :
  format_date (PStr s) w = (Ok (date_bound (today w) s), w).
Proof.
  unfold format_date, date_bound, today_str, ret.
  destruct (PyDate.strptime s); reflexivity.
Qed.

Lemma date_bound_eq (d : PyDate.ymd) (s : string) :
  date_bound d s = strftime (bound_date d s).
Proof. unfold date_bound, bound_date. destruct (PyDate.strptime s); reflexivity. Qed.

Lemma bound_date_valid (d : PyDate.ymd) (s : string) :
  PyDate.valid d = true -> PyDate.valid (bound_date d s) = true.
Proof.
  intros H. unfold bound_date. destruct (PyDate.strptime s) as [x|] eqn:E.
  - now apply strptime_valid in E.
  - exact H.
Qed.

(** The text of a calendar date as a bound: the date itself when its
    year is written with four digits, the day [d] when it is not. *)
Lemma date_bound_strftime (d x : PyDate.ymd) :
  PyDate.valid x = true ->
  date_bound d (strftime x)
  = if four_digits (PyDate.year x) then strftime x else strftime d.
Proof.
  intros Hv. unfold date_bound. destruct (four_digits (PyDate.year x)) eqn:H4.
  - now rewrite (strptime_strftime_valid x Hv H4).
  - now rewrite (strptime_strftime_short x Hv H4).
Qed.

(** The text of the day itself is a bound that stands for the day. *)
Lemma date_bound_today (d : PyDate.ymd) :
  PyDate.valid d = true -> date_bound d (strftime d) = strftime d.
Proof.
  intros Hv. rewrite (date_bound_strftime d d Hv).
  destruct (four_digits (PyDate.year d)); reflexivity.
Qed.


(** X1: [format_date] on the text [strftime] writes for a calendar
    date: the text is read back as that date and returned unchanged
    when its year is written with four digits (the platform pads, or the
    year is 1000 or later); when it is not, the text is not read as a
    date and the current date is returned in its place. *)
Theorem format_date_of_rendered (d : PyDate.ymd) (w : world) :
  PyDate.valid d = true ->
  PyDate.strptime (strftime d)
  = (if four_digits (PyDate.year d) then Some d else None)
  /\ format_date (PStr (strftime d)) w
     = (Ok (if four_digits (PyDate.year d) then strftime d else strftime (today w)), w).
Proof.
  intros Hv. rewrite format_date_eq, (date_bound_strftime _ _ Hv). split; [|reflexivity].
  destruct (four_digits (PyDate.year d)) eqn:H4.
  - now apply strptime_strftime_valid.
  - now apply strptime_strftime_short.
Qed.


(** *** Properties kept by every operation *)

Section Preservation.

Variable P : world -> Prop.
Hypothesis P_out : forall w ls, P w -> P (out w ls).
Hypothesis P_posted : forall w r, P w -> P (posted w r).

Lemma keeps_ret {A} (a : A) : keeps P (ret a).
Proof. intros w H. exact H. Qed.

Lemma keeps_raise {A} (e : exn) : keeps P (@raise A e).
Proof. intros w H. exact H. Qed.

Lemma keeps_lift {A} (r : outcome A) : keeps P (lift r).
Proof. intros w H. exact H. Qed.

Lemma keeps_read : keeps P read_expenses.
Proof. intros w H. exact H. Qed.

Lemma keeps_today : keeps P today_str.
Proof. intros w H. exact H. Qed.

Lemma keeps_prints {A} (m : M A) : prints m -> keeps P m.
Proof. intros Hm w H. destruct (Hm w) as [ls ->]. now apply P_out. Qed.

Lemma keeps_post (r : request) : keeps P (requests_post r).
Proof.
  intros w H. apply (P_posted w r) in H. unfold requests_post, posted in *.
  destruct (inbox w) as [|[|resp] rest]; exact H.
Qed.

Lemma keeps_bind {A B} (m : M A) (k : A -> M B) :
  keeps P m -> (forall a, keeps P (k a)) -> keeps P (bind m k).
Proof.
  intros Hm Hk w H. unfold bind. specialize (Hm w H).
  destruct (m w) as [[a|e] w1]; cbn [snd] in *; [now apply Hk | exact Hm].
Qed.

Lemma keeps_try {A} (m : M A) (h : exn -> M A) :
  keeps P m -> (forall e, keeps P (h e)) -> keeps P (try_except m h).
Proof.
  intros Hm Hh w H. unfold try_except. specialize (Hm w H).
  destruct (m w) as [[a|e] w1]; cbn [snd] in *; [exact Hm | now apply Hh].
Qed.

Lemma keeps_tool (intent : string) (tool : kwargs -> M tool_output) (args : kwargs) :
  assoc intent TOOL_MAP = Some tool -> keeps P (tool args).
Proof.
  unfold TOOL_MAP. cbn [assoc].
  destruct (String.eqb intent "filter").
  { intros H. inversion H. apply keeps_prints. unfold call_filter_expenses.
    destruct (forallb _ args); [|apply prints_raise].
    apply prints_bind; [apply prints_filter_expenses | intros; apply prints_ret]. }
  destruct (String.eqb intent "plot_distribution").
  { intros H. inversion H. apply keeps_prints, prints_plot_category_distribution. }
  destruct (String.eqb intent "plot_trend"); [|discriminate].
  intros H. inversion H. apply keeps_prints, prints_plot_spending_trend.
Qed.

Ltac keeps_step :=
  repeat first
    [ apply keeps_ret | apply keeps_raise | apply keeps_lift | apply keeps_read
    | apply keeps_today | apply keeps_post
    | apply keeps_prints; solve [auto with prints_db]
    | apply keeps_bind; [|intros] ].

Lemma keeps_execute_agent_command (text api_key : string) :
  keeps P (execute_agent_command text api_key).
Proof.
  unfold execute_agent_command.
  destruct (String.eqb api_key ""); [apply keeps_ret|]. cbv zeta.
  apply keeps_try; [|intros; keeps_step].
  keeps_step.
  match goal with |- keeps P (match ?o with _ => _ end) => destruct o as [tool|] eqn:Htool end.
  - apply keeps_bind; [apply keeps_read|]. intros [|e rest]; [apply keeps_ret|].
    apply keeps_bind; [now apply (keeps_tool _ _ _ Htool)|]. intros o.
    destruct (PyStr.startswith _ _); [destruct o|]; apply keeps_ret.
  - destruct (_ || _); keeps_step.
Qed.

Hypothesis P_add :
  forall amount category description date tags,
    keeps P (add_expense amount category description date tags).

Lemma keeps_add_items (items : list pyval) :
  forall n, keeps P (add_items items n).
Proof.
  induction items as [|item rest IH]; intros n; cbn [add_items]; [apply keeps_ret|].
  apply keeps_bind; [|intros; apply IH].
  unfold add_item.
  repeat (apply keeps_bind; [first [apply keeps_lift | apply keeps_today] | intros]).
  apply P_add.
Qed.

Lemma keeps_parse_expenses_via_gemini (text api_key : string) :
  keeps P (parse_expenses_via_gemini text api_key).
Proof.
  unfold parse_expenses_via_gemini.
  destruct (String.eqb api_key ""); [apply keeps_ret|]. cbv zeta.
  apply keeps_try; [|intros; keeps_step].
  keeps_step.
  match goal with |- keeps P (match ?v with _ => _ end) => destruct v end;
    try apply keeps_ret.
  apply keeps_bind; [apply keeps_add_items | intros; apply keeps_ret].
Qed.

Lemma keeps_run_call (c : call) (w : world) : P w -> P (run_call c w).
Proof.
  intros H. destruct c; cbn [run_call].
  - now apply P_add.
  - now apply (keeps_prints _ (prints_list_expenses expense_list)).
  - now apply (keeps_prints _ (prints_filter_expenses category tag start_date end_date)).
  - now apply (keeps_prints _ prints_create_dataframe).
  - now apply (keeps_prints _ prints_plot_category_distribution).
  - now apply (keeps_prints _ prints_plot_spending_trend).
  - now apply keeps_parse_expenses_via_gemini.
  - now apply keeps_execute_agent_command.
Qed.

Lemma keeps_run (calls : list call) : forall w, P w -> P (run calls w).
Proof.
  unfold run. induction calls as [|c rest IH]; intros w H; cbn [fold_left];
    [exact H | now apply IH, keeps_run_call].
Qed.

End Preservation.

(** *** What holds of the store throughout a session *)

Lemma sorted_snoc (l : list Z) (y : Z) :
  StronglySorted Z.lt l -> Forall (fun x => x < y) l -> StronglySorted Z.lt (l ++ [y]).
Proof.
  induction 1 as [|a l Hs IH Ha]; intros Hy; cbn.
  - constructor; constructor.
  - inversion Hy; subst. constructor; [now apply IH|].
    apply Forall_app. split; [exact Ha | now constructor].
Qed.

Lemma sorted_nodup (l : list Z) : StronglySorted Z.lt l -> NoDup l.
Proof.
  induction 1 as [|a l Hs IH Ha]; constructor; [|exact IH].
  intros Hin. rewrite Forall_forall in Ha. specialize (Ha a Hin). lia.
Qed.

Lemma ids_ok_add (amount category description date tags : pyval) :
  keeps ids_ok (add_expense amount category description date tags).
Proof.
  intros w (Hs & Hb & Hc). rewrite add_expense_eq.
  destruct (build_expense _ _ _ _ _ _ _) as [e|x] eqn:Hbuild; cbn [snd].
  - apply build_expense_id in Hbuild. unfold ids_ok. cbn [stored expenses expense_id_counter].
    repeat split.
    + rewrite map_app. cbn [map]. apply sorted_snoc; [exact Hs|].
      rewrite Forall_map. rewrite Hbuild.
      eapply Forall_impl; [|exact Hb]. cbn. intros; lia.
    + apply Forall_app. split.
      * eapply Forall_impl; [|exact Hb]. cbn. intros; lia.
      * constructor; [lia | constructor].
    + lia.
  - unfold ids_ok. cbn [skipped expenses expense_id_counter]. repeat split.
    + exact Hs.
    + eapply Forall_impl; [|exact Hb]. cbn. intros; lia.
    + lia.
Qed.

(** X3: whatever calls a session makes, with whatever arguments and
    whatever the endpoint replies, the ids of the stored records are at
    least 1, strictly increasing in insertion order, below the counter,
    and so pairwise distinct. *)
Theorem session_ids_increase (calls : list call) (d : PyDate.ymd) (replies : list reply) :
  let w := run calls (fresh d replies) in
  StronglySorted Z.lt (map Expense.id (expenses w))
  /\ Forall (fun e => 1 <= Expense.id e < expense_id_counter w) (expenses w)
  /\ NoDup (map Expense.id (expenses w)).
Proof.
  intros w.
  assert (H : ids_ok w).
  { apply (keeps_run ids_ok); try (intros; assumption).
    - exact ids_ok_add.
    - unfold ids_ok, fresh. cbn. repeat split; [constructor | constructor | lia]. }
  destruct H as (Hs & Hb & _). repeat split; try assumption.
  now apply sorted_nodup.
Qed.

Lemma map_result_strip_lower (l : list pyval) (ts : list string) :
  map_result py_strip_lower l = Ok ts ->
  Forall (fun t => PyStr.lower (PyStr.strip t) = t) ts.
Proof.
  revert ts. induction l as [|v l IH]; intros ts; cbn.
  - intros H. inversion H. constructor.
  - destruct v; try discriminate. cbn.
    destruct (map_result py_strip_lower l) as [ts'|]; [|discriminate].
    intros H. inversion H. constructor; [apply strip_lower_idem | now apply IH].
Qed.

Lemma build_expense_normalized d i a c ds dt t e :
  build_expense d i a c ds dt t = Ok e -> normalized e.
Proof.
  unfold build_expense.
  destruct (py_float a); cbn [and_then]; [|discriminate].
  destruct c; try discriminate. cbn [py_strip_lower and_then].
  destruct dt; try discriminate. cbn [and_then].
  destruct ds; try discriminate. cbn [py_strip and_then].
  destruct (truthy t).
  - destruct (iterate t) as [l|]; cbn [and_then]; [|discriminate].
    destruct (map_result py_strip_lower l) as [ts|] eqn:E; cbn [and_then]; [|discriminate].
    intros H. inversion H. unfold normalized. cbn.
    repeat split; [apply strip_lower_idem | apply strip_idem |].
    now apply map_result_strip_lower in E.
  - cbn [and_then]. intros H. inversion H. unfold normalized. cbn.
    repeat split; [apply strip_lower_idem | apply strip_idem | constructor].
Qed.

Lemma rendered_date_bound (d : PyDate.ymd) (s : string) :
  PyDate.valid d = true -> rendered (date_bound d s).
Proof.
  intros Hv. exists (bound_date d s).
  pose proof (bound_date_valid d s Hv) as Hb.
  split; [exact Hb|]. split; [apply date_bound_eq|].
  intros H4. rewrite date_bound_eq. now apply strptime_strftime_valid.
Qed.

Lemma build_expense_date d i a c ds dt t e :
  PyDate.valid d = true ->
  build_expense d i a c ds dt t = Ok e -> rendered (Expense.date e).
Proof.
  intros Hv. unfold build_expense.
  destruct (py_float a); cbn [and_then]; [|discriminate].
  destruct (py_strip_lower c); cbn [and_then]; [|discriminate].
  destruct dt; try discriminate. cbn [and_then].
  destruct (py_strip ds); cbn [and_then]; [|discriminate].
  destruct (if truthy t then _ else _); cbn [and_then]; [|discriminate].
  intros H. inversion H. cbn. apply (rendered_date_bound d s Hv).
Qed.

Lemma run_normalized (calls : list call) (d : PyDate.ymd) (replies : list reply) :
  Forall normalized (expenses (run calls (fresh d replies))).
Proof.
  apply (keeps_run (fun w => Forall normalized (expenses w)));
    try (intros; assumption).
  - intros a c ds dt t w H. rewrite add_expense_eq.
    destruct (build_expense _ _ _ _ _ _ _) as [e|x] eqn:Hb; cbn; [|exact H].
    apply Forall_app. split; [exact H|].
    constructor; [now apply build_expense_normalized in Hb | constructor].
  - constructor.
Qed.

(** X4: throughout a session every stored record is in normal form:
    its category and each of its tags are unchanged by strip and lower,
    and its description is unchanged by strip. *)
Theorem session_records_normalized (calls : list call) (d : PyDate.ymd)
        (replies : list reply) :
  Forall normalized (expenses (run calls (fresh d replies))).
Proof. apply run_normalized. Qed.

(** X5: in a session that runs on a day of the calendar, every stored
    date is the text [strftime] writes for a calendar date: the date the
    caller's text was read as, or the current date, never the caller's
    text itself.  Where the year of that date is written with four
    digits (the platform pads, or the year is 1000 or later) the stored
    text is in canonical YYYY-MM-DD form: [strptime] reads it back as the
    same date. *)
Theorem session_dates_rendered (calls : list call) (d : PyDate.ymd)
        (replies : list reply) :
  PyDate.valid d = true ->
  Forall (fun e =>
            exists x, PyDate.valid x = true
                      /\ Expense.date e = strftime x
                      /\ (four_digits (PyDate.year x) = true ->
                          PyDate.strptime (Expense.date e) = Some x))
         (expenses (run calls (fresh d replies))).
Proof.
  intros Hv.
  apply (keeps_run (fun w => today w = d
                             /\ Forall (fun e => rendered (Expense.date e)) (expenses w)));
    try (intros; assumption).
  - intros a c ds dt t w [Ht H]. rewrite add_expense_eq.
    destruct (build_expense _ _ _ _ _ _ _) as [e|x] eqn:Hb; cbn; [|now split].
    split; [exact Ht|]. apply Forall_app. split; [exact H|].
    constructor; [|constructor].
    rewrite Ht in Hb. now apply (build_expense_date _ _ _ _ _ _ _ _ Hv Hb).
  - split; [reflexivity | constructor].
Qed.

(** *** Finding a stored record again *)

Lemma listing_cons (e : expense) (sel : list expense) :
  In e sel -> listing sel = [LRule; LHeader; LRule] ++ map LRow sel ++ [LRule].
Proof. intros H. destruct sel; [contradiction | reflexivity]. Qed.

(** A record of the store that meets the criteria is in the selection
    the filter reports, and its row is in the table the call prints. *)
Lemma filter_finds (category tag start_date end_date : option string)
      (w : world) (e : expense) :
  In e (expenses w) ->
  matches (today w) category tag start_date end_date e = true ->
  exists sel,
    filter_expenses (crit category) (crit tag) (crit start_date) (crit end_date) w
    = (Ok (report sel),
       out w (LFilterResults (List.length sel)
              :: [LRule; LHeader; LRule] ++ map LRow sel ++ [LRule]))
    /\ In e sel.
Proof.
  intros Hin Hm.
  assert (Hsel : In e (filter (matches (today w) category tag start_date end_date)
                              (expenses w))) by (apply filter_In; now split).
  eexists. split; [|exact Hsel].
  rewrite filter_expenses_eq. cbv zeta. now rewrite (listing_cons e _ Hsel).
Qed.

(** X6: every record of the store is found by a filter on its own
    category and by a filter on any of its own tags: the call returns
    the summary of a selection that holds the record, and the lines it
    adds to the console are the count line and the table of that
    selection, the row of the record among them. *)
Theorem stored_record_is_found (calls : list call) (d : PyDate.ymd)
        (replies : list reply) (e : expense) :
  let w := run calls (fresh d replies) in
  In e (expenses w) ->
  (exists sel,
      filter_expenses (PStr (Expense.category e)) PNone PNone PNone w
      = (Ok (report sel),
         out w (LFilterResults (List.length sel)
                :: [LRule; LHeader; LRule] ++ map LRow sel ++ [LRule]))
      /\ In e sel)
  /\ forall tg, In tg (Expense.tags e) ->
       exists sel,
         filter_expenses PNone (PStr tg) PNone PNone w
         = (Ok (report sel),
            out w (LFilterResults (List.length sel)
                   :: [LRule; LHeader; LRule] ++ map LRow sel ++ [LRule]))
         /\ In e sel.
Proof.
  intros w Hin.
  pose proof (run_normalized calls d replies) as Hn.
  rewrite Forall_forall in Hn. destruct (Hn e Hin) as (Hc & _ & Ht).
  split.
  - apply (filter_finds (Some (Expense.category e)) None None None w e Hin).
    unfold matches, category_matches, supplied.
    destruct (String.eqb (Expense.category e) ""); [reflexivity|].
    rewrite Hc, String.eqb_refl. reflexivity.
  - intros tg Htg.
    apply (filter_finds None (Some tg) None None w e Hin).
    unfold matches, tag_matches, supplied. cbn [category_matches supplied andb].
    destruct (String.eqb tg ""); [reflexivity|].
    rewrite Forall_forall in Ht. rewrite (Ht tg Htg).
    unfold mem_str. replace (existsb (String.eqb tg) (Expense.tags e)) with true;
      [reflexivity|].
    symmetry. apply existsb_exists. exists tg. split; [exact Htg | apply String.eqb_refl].
Qed.

(** *** The boundary of the two adapters *)

Lemma try_except_total {A} (m : M A) (h : exn -> M A) (w : world) :
  (forall e w', exists a, fst (h e w') = Ok a) ->
  exists a, fst (try_except m h w) = Ok a.
Proof.
  intros Hh. unfold try_except. destruct (m w) as [[a|e] w1]; [now exists a | apply Hh].
Qed.

(** X7: neither adapter lets an exception through: whatever the
    credential, the text, the store and the replies of the endpoint,
    both return a result. *)
Theorem adapters_never_raise (text api_key : string) (w : world) :
  (exists r, fst (parse_expenses_via_gemini text api_key w) = Ok r)
  /\ (exists r, fst (execute_agent_command text api_key w) = Ok r).
Proof.
  split.
  - unfold parse_expenses_via_gemini.
    destruct (String.eqb api_key ""); [eexists; reflexivity|]. cbv zeta.
    apply try_except_total. intros e w'. eexists. reflexivity.
  - unfold execute_agent_command.
    destruct (String.eqb api_key ""); [eexists; reflexivity|]. cbv zeta.
    apply try_except_total. intros e w'. eexists. reflexivity.
Qed.

(** X8: [execute_agent_command] never touches the store: whatever it
    is asked and whatever the endpoint replies, the records, the id
    counter and the date are as before. *)
Theorem agent_leaves_store (text api_key : string) (w : world) :
  let w' := snd (execute_agent_command text api_key w) in
  expenses w' = expenses w
  /\ expense_id_counter w' = expense_id_counter w
  /\ today w' = today w.
Proof.
  apply (keeps_execute_agent_command
           (fun w' => expenses w' = expenses w
                      /\ expense_id_counter w' = expense_id_counter w
                      /\ today w' = today w));
    try (intros; assumption).
  repeat split.
Qed.

(** What the adapters do when the call to the endpoint fails. *)
Lemma parse_failed_call (text api_key : string) (e : exn) (w : world) :
  api_key <> ""%string ->
  next_text w = Raise e ->
  parse_expenses_via_gemini text api_key w
  = (Ok (None, ("An error occurred during parsing: " ++ str_exn e)%string),
     out (posted w (mk_request (endpoint api_key) text
                               (Some expense_system_prompt) (Some ExpenseArraySchema)))
         [LParseError e]).
Proof.
  intros Hk Ht. unfold parse_expenses_via_gemini.
  rewrite (key_present _ Hk). unfold try_except. rewrite opening_eq.
  unfold next_text in Ht.
  destruct (next_reply w) as [raw|e0]; cbn [and_then] in Ht.
  - unfold bind at 1. unfold lift at 1. rewrite Ht. reflexivity.
  - inversion Ht. reflexivity.
Qed.

Lemma agent_failed_call (text api_key : string) (e : exn) (w : world) :
  api_key <> ""%string ->
  next_text w = Raise e ->
  execute_agent_command text api_key w
  = (Ok (PStr ("An internal error occurred: " ++ str_exn e)%string, None),
     out (posted w (intent_request text api_key)) [LFatal e]).
Proof.
  intros Hk Ht. unfold execute_agent_command.
  rewrite (key_present _ Hk). cbv zeta. unfold try_except. rewrite opening_eq.
  unfold next_text in Ht.
  destruct (next_reply w) as [raw|e0]; cbn [and_then] in Ht.
  - unfold bind at 1. unfold lift at 1. rewrite Ht. reflexivity.
  - inversion Ht. reflexivity.
Qed.

(** X9: when the call to the endpoint fails on the way to the text of
    the response (no connection, an HTTP error status, a body that is not
    JSON or lacks candidates, content, parts or text, a text that is not a
    string), both adapters report the exception in their message, return
    no data and no chart, have sent exactly the one request, and the
    extraction leaves the store as it was. *)
Theorem failed_call_is_reported (text api_key : string) (e : exn) (w : world) :
  api_key <> ""%string ->
  next_text w = Raise e ->
  let p := parse_expenses_via_gemini text api_key w in
  let a := execute_agent_command text api_key w in
  fst p = Ok (None, ("An error occurred during parsing: " ++ str_exn e)%string)
  /\ fst a = Ok (PStr ("An internal error occurred: " ++ str_exn e)%string, None)
  /\ expenses (snd p) = expenses w
  /\ expense_id_counter (snd p) = expense_id_counter w
  /\ List.length (sent (snd p)) = S (List.length (sent w))
  /\ List.length (sent (snd a)) = S (List.length (sent w)).
Proof.
  intros Hk Ht p a.
  subst p a. rewrite (parse_failed_call text api_key _ w Hk Ht).
  rewrite (agent_failed_call text api_key _ w Hk Ht). cbn.
  rewrite !length_app. cbn. repeat split; lia.
Qed.

(** *** A batch that is inserted whole *)

Lemma item_record_id (d : PyDate.ymd) (i : Z) (item : pyval) (e : expense) :
  item_record d i item = Ok e -> Expense.id e = i.
Proof.
  unfold item_record. destruct item; try discriminate. apply build_expense_id.
Qed.

Lemma inserted_ids (d : PyDate.ymd) (items : list pyval) :
  forall i,
    map Expense.id (inserted d i items)
    = count_from i (List.length (inserted d i items)).
Proof.
  induction items as [|item rest IH]; intros i; cbn; [reflexivity|].
  destruct (item_record d i item) as [e|x] eqn:E; cbn; [|reflexivity].
  rewrite (item_record_id _ _ _ _ E), IH. reflexivity.
Qed.

Lemma ok_prefix_all (d : PyDate.ymd) (items : list pyval) :
  forallb (inserts d) items = true -> ok_prefix d items = items.
Proof.
  induction items as [|item rest IH]; cbn; [reflexivity|].
  destruct (inserts d item); cbn; [|discriminate]. intros H. now rewrite IH.
Qed.

Lemma add_items_counter (items : list pyval) :
  forall (n : Z) (w : world),
    forallb (inserts (today w)) items = true ->
    expense_id_counter (snd (add_items items n w))
    = expense_id_counter w + Z.of_nat (List.length items).
Proof.
  induction items as [|item rest IH]; intros n w Hall.
  - cbn. lia.
  - cbn [forallb] in Hall. apply andb_true_iff in Hall. destruct Hall as [Hi Hr].
    cbn [add_items]. unfold bind. rewrite add_item_eq.
    pose proof (item_record_inserts (today w) (expense_id_counter w) item) as Hrec.
    destruct item as [| | | | | |kv]; try (cbn in Hi; discriminate).
    destruct (item_record (today w) (expense_id_counter w) (PDict kv)) as [e|x];
      [|rewrite Hrec in Hi; discriminate].
    rewrite (IH (n + 1) (stored w e) Hr). cbn [stored expense_id_counter List.length].
    rewrite Nat2Z.inj_succ. lia.
Qed.

(** X10: when every element of the batch can be inserted, the
    extraction appends one record per element, in order, gives them the
    consecutive ids that start at the counter, and advances the counter
    by the number of elements. *)
Theorem batch_ids_consecutive (text api_key t : string) (items : list pyval)
        (w : world) :
  api_key <> ""%string ->
  next_text w = Ok t ->
  json_loads t = Some (PList items) ->
  forallb (inserts (today w)) items = true ->
  let r := parse_expenses_via_gemini text api_key w in
  exists recs,
    expenses (snd r) = expenses w ++ recs
    /\ List.length recs = List.length items
    /\ map Expense.id recs = count_from (expense_id_counter w) (List.length items)
    /\ expense_id_counter (snd r)
       = expense_id_counter w + Z.of_nat (List.length items).
Proof.
  intros Hk Ht Hv Hall r. subst r. rewrite (parse_eq text api_key t w Hk Ht).
  cbv zeta. rewrite Hv.
  set (w1 := posted w _).
  destruct (add_items_eq items 0 w1) as (He & _ & Hf).
  pose proof (add_items_counter items 0 w1 Hall) as Hc.
  change (today w1) with (today w) in *.
  change (expenses w1) with (expenses w) in *.
  change (expense_id_counter w1) with (expense_id_counter w) in *.
  rewrite Hall in Hf.
  destruct (add_items items 0 w1) as [[n|e] w2]; cbn [fst snd] in *; [|discriminate].
  exists (inserted (today w) (expense_id_counter w) items).
  assert (Hlen : List.length (inserted (today w) (expense_id_counter w) items)
                 = List.length items).
  { now rewrite length_inserted, ok_prefix_all. }
  repeat split; try assumption.
  now rewrite inserted_ids, Hlen.
Qed.

(** X11: a call of [add_expense] that raises stores nothing and prints
    nothing, yet uses up an id: the next successful call gets the id
    after the one it skipped, so the ids of the store can have gaps. *)
Theorem failed_insert_uses_an_id (a c ds dt t a' c' ds' dt' t' : pyval)
        (x : exn) (e : expense) (w : world) :
  fst (add_expense a c ds dt t w) = Raise x ->
  fst (add_expense a' c' ds' dt' t' (snd (add_expense a c ds dt t w))) = Ok e ->
  expenses (snd (add_expense a c ds dt t w)) = expenses w
  /\ stdout (snd (add_expense a c ds dt t w)) = stdout w
  /\ Expense.id e = expense_id_counter w + 1
  /\ expenses (snd (add_expense a' c' ds' dt' t' (snd (add_expense a c ds dt t w))))
     = expenses w ++ [e].
Proof.
  rewrite (add_expense_eq a c ds dt t w).
  destruct (build_expense _ _ a c ds dt t) as [e0|x0]; cbn [fst snd]; [discriminate|].
  intros _. rewrite add_expense_eq.
  destruct (build_expense _ _ a' c' ds' dt' t') as [e1|x1] eqn:Hb; cbn [fst snd];
    [|discriminate].
  intros H. inversion H. subst e1.
  apply build_expense_id in Hb. cbn in Hb. repeat split; assumption.
Qed.

(** X12: the date of a batch element, on a day of the calendar.  An
    element without a date key is dated today; one whose date is text is
    dated as [format_date] reads that text (today when it is not a
    date); one whose date is anything else (null, a number) cannot be
    inserted. *)
Theorem batch_item_date (kv : list (string * pyval)) (w : world) :
  PyDate.valid (today w) = true ->
  let r := fst (add_item (PDict kv) w) in
  match assoc "date" kv with
  | None =>
      forall e, r = Ok e -> Expense.date e = strftime (today w)
  | Some (PStr s) =>
      forall e, r = Ok e -> Expense.date e = date_bound (today w) s
  | Some _ => exists x, r = Raise x
  end.
Proof.
  intros Hv r. subst r. rewrite add_item_eq. unfold item_record, build_expense.
  destruct (py_float _) as [amt|x].
  2:{ cbn. destruct (assoc "date" kv) as [[| | | | | |]|];
        try (eexists; reflexivity); intros; discriminate. }
  cbn [and_then]. destruct (py_strip_lower _) as [cat|x].
  2:{ cbn. destruct (assoc "date" kv) as [[| | | | | |]|];
        try (eexists; reflexivity); intros; discriminate. }
  cbn [and_then].
  destruct (assoc "date" kv) as [[| | | | s | |]|]; cbn [and_then fst];
    try (eexists; reflexivity).
  - destruct (py_strip _) as [dsc|x]; cbn; intros e H; [|discriminate].
    inversion H. reflexivity.
  - pose proof (date_bound_today (today w) Hv) as Hd. unfold date_bound in Hd.
    rewrite Hd.
    destruct (py_strip _) as [dsc|x]; cbn; intros e H; [|discriminate].
    inversion H. reflexivity.
Qed.

(** *** Grouping by key *)

Section GroupBy.

Variable K : Type.
Variables ltb eqb : K -> K -> bool.
Hypothesis eqb_eq : forall a b, eqb a b = true <-> a = b.
Hypothesis ltb_irrefl : forall a, ltb a a = false.
Hypothesis ltb_trans : forall a b c, ltb a b = true -> ltb b c = true -> ltb a c = true.
Hypothesis ltb_total : forall a b, eqb a b = false -> ltb a b = false -> ltb b a = true.

Let lt (a b : K) : Prop := ltb a b = true.

Lemma eqb_refl_K (a : K) : eqb a a = true.
Proof. now apply eqb_eq. Qed.

Lemma eqb_sym_K (a b : K) : eqb a b = eqb b a.
Proof.
  destruct (eqb a b) eqn:E1, (eqb b a) eqn:E2; try reflexivity.
  - apply eqb_eq in E1. subst. now rewrite eqb_refl_K in E2.
  - apply eqb_eq in E2. subst. now rewrite eqb_refl_K in E1.
Qed.

Lemma insert_keys (k : K) (v : float) (gs : list (K * list float)) (x : K) :
  In x (map fst (group_insert ltb eqb k v gs)) <-> x = k \/ In x (map fst gs).
Proof.
  induction gs as [|[k' vs] rest IH]; cbn.
  - intuition.
  - destruct (eqb k k') eqn:E; [|destruct (ltb k k')]; cbn.
    + apply eqb_eq in E. subst. intuition.
    + intuition.
    + rewrite IH. intuition.
Qed.

Lemma insert_sorted (k : K) (v : float) (gs : list (K * list float)) :
  StronglySorted lt (map fst gs) ->
  StronglySorted lt (map fst (group_insert ltb eqb k v gs)).
Proof.
  induction gs as [|[k' vs] rest IH]; cbn; intros Hs.
  - constructor; constructor.
  - inversion Hs as [|a l Hrest Hall]; subst.
    destruct (eqb k k') eqn:E; [|destruct (ltb k k') eqn:L]; cbn.
    + constructor; assumption.
    + constructor; [exact Hs|]. constructor; [exact L|].
      eapply Forall_impl; [|exact Hall]. intros a Ha. exact (ltb_trans _ _ _ L Ha).
    + constructor; [now apply IH|].
      apply Forall_forall. intros x Hx. apply insert_keys in Hx.
      destruct Hx as [->|Hx].
      * now apply ltb_total.
      * rewrite Forall_forall in Hall. now apply Hall.
Qed.

Lemma group_of_absent (k : K) (gs : list (K * list float)) :
  Forall (lt k) (map fst gs) -> group_of eqb k gs = [].
Proof.
  unfold group_of. induction gs as [|[k' vs] rest IH]; cbn; intros H; [reflexivity|].
  inversion H as [|a l Hk Hrest]; subst.
  destruct (eqb k' k) eqn:E.
  - apply eqb_eq in E. subst. unfold lt in Hk. now rewrite ltb_irrefl in Hk.
  - now apply IH.
Qed.

Lemma insert_group_of (k : K) (v : float) (gs : list (K * list float)) (x : K) :
  StronglySorted lt (map fst gs) ->
  group_of eqb x (group_insert ltb eqb k v gs)
  = group_of eqb x gs ++ (if eqb k x then [v] else []).
Proof.
  unfold group_of. induction gs as [|[k' vs] rest IH]; cbn; intros Hs.
  - destruct (eqb k x); reflexivity.
  - inversion Hs as [|a l Hrest Hall]; subst.
    destruct (eqb k k') eqn:E; [|destruct (ltb k k') eqn:L]; cbn.
    + apply eqb_eq in E. subst k'. destruct (eqb k x); cbn;
        [reflexivity | now rewrite app_nil_r].
    + destruct (eqb k x) eqn:Ex.
      * apply eqb_eq in Ex. subst x. rewrite (eqb_sym_K k' k), E.
        assert (Hab : Forall (lt k) (map fst rest)).
        { eapply Forall_impl; [|exact Hall]. intros a Ha. exact (ltb_trans _ _ _ L Ha). }
        pose proof (group_of_absent k rest Hab) as H0. unfold group_of in H0.
        now rewrite H0.
      * now rewrite app_nil_r.
    + destruct (eqb k' x) eqn:Ex.
      * apply eqb_eq in Ex. rewrite <- Ex, E. now rewrite app_nil_r.
      * now apply IH.
Qed.

Lemma groups_of_snoc (rows : list (K * float)) (r : K * float) :
  groups_of ltb eqb (rows ++ [r])
  = group_insert ltb eqb (fst r) (snd r) (groups_of ltb eqb rows).
Proof. unfold groups_of. now rewrite fold_left_app. Qed.

Lemma groups_sorted (rows : list (K * float)) :
  StronglySorted lt (map fst (groups_of ltb eqb rows)).
Proof.
  induction rows as [|r rows IH] using rev_ind; [constructor|].
  rewrite groups_of_snoc. now apply insert_sorted.
Qed.

Lemma groups_keys (rows : list (K * float)) (x : K) :
  In x (map fst (groups_of ltb eqb rows)) <-> In x (map fst rows).
Proof.
  induction rows as [|r rows IH] using rev_ind; [reflexivity|].
  rewrite groups_of_snoc, insert_keys, IH, map_app, in_app_iff. cbn. intuition.
Qed.

Lemma groups_group_of (rows : list (K * float)) (x : K) :
  group_of eqb x (groups_of ltb eqb rows) = amounts_of eqb x rows.
Proof.
  induction rows as [|r rows IH] using rev_ind; [reflexivity|].
  rewrite groups_of_snoc, insert_group_of by apply groups_sorted.
  rewrite IH. unfold amounts_of. rewrite filter_app, map_app. cbn.
  destruct (eqb (fst r) x); reflexivity.
Qed.

Lemma in_group_of (gs : list (K * list float)) (k : K) (vs : list float) :
  StronglySorted lt (map fst gs) -> In (k, vs) gs -> group_of eqb k gs = vs.
Proof.
  unfold group_of. induction gs as [|[k' vs'] rest IH]; cbn; intros Hs Hin;
    [contradiction|].
  inversion Hs as [|a l Hrest Hall]; subst.
  destruct Hin as [Heq|Hin].
  - inversion Heq; subst. now rewrite eqb_refl_K.
  - destruct (eqb k' k) eqn:E; [|now apply IH].
    apply eqb_eq in E. subst k'. rewrite Forall_forall in Hall.
    specialize (Hall k (in_map fst _ _ Hin)). unfold lt in Hall.
    now rewrite ltb_irrefl in Hall.
Qed.

(** The table [groupby_sum] builds: its keys are in strictly increasing
    order, they are the keys of the rows, and beside each key stands the
    sum of the amounts of the rows with that key, taken in row order. *)
Lemma groupby_sum_table (rows : list (K * float)) :
  StronglySorted lt (map fst (groupby_sum ltb eqb rows))
  /\ forall k v,
       In (k, v) (groupby_sum ltb eqb rows) <->
       In k (map fst rows) /\ v = pd_sum (amounts_of eqb k rows).
Proof.
  unfold groupby_sum. fold (groups_of ltb eqb rows).
  pose proof (groups_sorted rows) as Hs.
  split.
  - rewrite map_map. cbn. exact Hs.
  - intros k v. rewrite in_map_iff. split.
    + intros ([k' vs] & Heq & Hin). cbn in Heq. inversion Heq; subst.
      split.
      * apply groups_keys. now apply (in_map fst) in Hin.
      * rewrite <- groups_group_of. now rewrite (in_group_of _ _ _ Hs Hin).
    + intros [Hk ->]. apply groups_keys in Hk. apply in_map_iff in Hk.
      destruct Hk as ([k' vs] & Hfst & Hin). cbn in Hfst. subst k'.
      exists (k, vs). split; [|exact Hin]. cbn.
      rewrite <- groups_group_of. now rewrite (in_group_of _ _ _ Hs Hin).
Qed.

End GroupBy.

(** *** The order of text *)

Lemma ascii_compare_refl (a : ascii) : Ascii.compare a a = Eq.
Proof. unfold Ascii.compare. apply N.compare_refl. Qed.

Lemma ascii_compare_lt_trans (a b c : ascii) :
  Ascii.compare a b = Lt -> Ascii.compare b c = Lt -> Ascii.compare a c = Lt.
Proof.
  unfold Ascii.compare. rewrite !N.compare_lt_iff. apply N.lt_trans.
Qed.

Lemma string_compare_refl (s : string) : String.compare s s = Eq.
Proof.
  induction s as [|c s IH]; cbn; [reflexivity|]. now rewrite ascii_compare_refl.
Qed.

Lemma string_compare_lt_trans (a : string) :
  forall b c,
    String.compare a b = Lt -> String.compare b c = Lt -> String.compare a c = Lt.
Proof.
  induction a as [|x a IH]; intros [|y b] [|z c]; cbn; try discriminate;
    try reflexivity.
  destruct (Ascii.compare x y) eqn:E1; try discriminate.
  - apply Ascii.compare_eq_iff in E1. subst y.
    destruct (Ascii.compare x z); try discriminate; [apply IH | reflexivity].
  - intros _. destruct (Ascii.compare y z) eqn:E2; try discriminate.
    + apply Ascii.compare_eq_iff in E2. subst z. now rewrite E1.
    + now rewrite (ascii_compare_lt_trans _ _ _ E1 E2).
Qed.

Lemma string_ltb_irrefl (a : string) : String.ltb a a = false.
Proof. unfold String.ltb. now rewrite string_compare_refl. Qed.

Lemma string_ltb_trans (a b c : string) :
  String.ltb a b = true -> String.ltb b c = true -> String.ltb a c = true.
Proof.
  unfold String.ltb.
  destruct (String.compare a b) eqn:E1; try discriminate.
  destruct (String.compare b c) eqn:E2; try discriminate.
  now rewrite (string_compare_lt_trans _ _ _ E1 E2).
Qed.

Lemma string_ltb_total (a b : string) :
  String.eqb a b = false -> String.ltb a b = false -> String.ltb b a = true.
Proof.
  unfold String.ltb. intros Hne. rewrite (String.compare_antisym b a).
  destruct (String.compare a b) eqn:E; try discriminate; [|reflexivity].
  apply String.compare_eq_iff in E. subst. now rewrite String.eqb_refl in Hne.
Qed.

Lemma string_leb_ltb (a b : string) :
  String.leb a b = true -> String.ltb b a = false.
Proof.
  unfold String.leb, String.ltb. rewrite (String.compare_antisym b a).
  destruct (String.compare a b); [reflexivity | reflexivity | discriminate].
Qed.

Lemma string_leb_trans (a b c : string) :
  String.leb a b = true -> String.leb b c = true -> String.leb a c = true.
Proof.
  unfold String.leb.
  destruct (String.compare a b) eqn:E1; try discriminate;
    destruct (String.compare b c) eqn:E2; try discriminate; intros _ _.
  - apply String.compare_eq_iff in E1. subst. now rewrite E2.
  - apply String.compare_eq_iff in E1. subst. now rewrite E2.
  - apply String.compare_eq_iff in E2. subst. now rewrite E1.
  - now rewrite (string_compare_lt_trans _ _ _ E1 E2).
Qed.

Lemma Z_ltb_total (a b : Z) : Z.eqb a b = false -> Z.ltb a b = false -> Z.ltb b a = true.
Proof. rewrite Z.eqb_neq, Z.ltb_ge, Z.ltb_lt. lia. Qed.

Lemma Z_ltb_trans (a b c : Z) : Z.ltb a b = true -> Z.ltb b c = true -> Z.ltb a c = true.
Proof. rewrite !Z.ltb_lt. lia. Qed.

(** *** The two charts *)

Lemma sorted_impl {A} (R R' : A -> A -> Prop) (l : list A) :
  (forall a b, R a b -> R' a b) -> StronglySorted R l -> StronglySorted R' l.
Proof.
  intros H. induction 1 as [|a l Hs IH Ha]; constructor; [exact IH|].
  eapply Forall_impl; [|exact Ha]. intros b. apply H.
Qed.

Lemma kept_rows_nonempty (l : list expense) : kept_rows l <> [] -> l <> [].
Proof. intros H ->. now apply H. Qed.

(** X13: when the DataFrame keeps at least one record, the category
    chart has one slice per category of the kept records, the slices
    stand in strictly increasing order of their names, and the value of
    each slice is the sum pandas takes over the amounts of the kept
    records of that category, in insertion order; drawing it changes
    nothing in the world. *)
Theorem category_chart_table (w : world) :
  kept_rows (expenses w) <> [] ->
  exists chart,
    plot_category_distribution w = (Ok (OutFig (Pie chart)), w)
    /\ StronglySorted (fun a b => String.ltb a b = true) (map fst chart)
    /\ forall c v,
         In (c, v) chart <->
         In c (map fst (category_rows (kept_rows (expenses w))))
         /\ v = pd_sum (amounts_of String.eqb c (category_rows (kept_rows (expenses w)))).
Proof.
  intros Hk. pose proof (kept_rows_nonempty _ Hk) as Hne.
  exists (groupby_sum String.ltb String.eqb (category_rows (kept_rows (expenses w)))).
  split.
  - unfold plot_category_distribution, bind. rewrite (create_dataframe_eq w Hne).
    destruct (kept_rows (expenses w)); [contradiction | reflexivity].
  - apply groupby_sum_table.
    + apply String.eqb_eq.
    + apply string_ltb_irrefl.
    + apply string_ltb_trans.
    + apply string_ltb_total.
Qed.

(** X14: when the DataFrame keeps at least one record, the trend chart
    has one point per date of the kept records, the points stand in
    strictly increasing order of time, and the value of each point is
    the sum pandas takes over the amounts of the kept records of that
    date, in insertion order; drawing it changes nothing in the world. *)
Theorem trend_chart_table (w : world) :
  kept_rows (expenses w) <> [] ->
  exists chart,
    plot_spending_trend w = (Ok (OutFig (Line chart)), w)
    /\ StronglySorted Z.lt (map fst chart)
    /\ forall t v,
         In (t, v) chart <->
         In t (map fst (date_rows (kept_rows (expenses w))))
         /\ v = pd_sum (amounts_of Z.eqb t (date_rows (kept_rows (expenses w)))).
Proof.
  intros Hk. pose proof (kept_rows_nonempty _ Hk) as Hne.
  exists (groupby_sum Z.ltb Z.eqb (date_rows (kept_rows (expenses w)))).
  split.
  - unfold plot_spending_trend, bind. rewrite (create_dataframe_eq w Hne).
    destruct (kept_rows (expenses w)); [contradiction | reflexivity].
  - destruct (groupby_sum_table Z Z.ltb Z.eqb Z.eqb_eq Z.ltb_irrefl Z_ltb_trans
                Z_ltb_total (date_rows (kept_rows (expenses w)))) as [Hs Ht].
    split; [|exact Ht].
    eapply sorted_impl; [|exact Hs]. intros a b. apply Z.ltb_lt.
Qed.

(** *** The store only grows *)

(** X15: the store is append-only.  Whatever a session does after a
    state [w], the records of [w] are still there, unchanged and in the
    same order, in front of the records added since, and the id counter
    has not gone down. *)
Theorem session_appends_only (calls : list call) (w : world) :
  exists recs,
    expenses (run calls w) = expenses w ++ recs
    /\ expense_id_counter w <= expense_id_counter (run calls w).
Proof.
  apply (keeps_run (fun w' => exists recs,
                        expenses w' = expenses w ++ recs
                        /\ expense_id_counter w <= expense_id_counter w'));
    try (intros; assumption).
  - intros a c ds dt t w0 (recs & He & Hc). rewrite add_expense_eq.
    destruct (build_expense _ _ _ _ _ _ _) as [e|x]; cbn.
    + exists (recs ++ [e]). rewrite He, app_assoc. split; [reflexivity | lia].
    + exists recs. split; [exact He | lia].
  - exists []. rewrite app_nil_r. split; [reflexivity | lia].
Qed.

(** *** Date ranges *)

Lemma filter_none {A} (f : A -> bool) (l : list A) :
  (forall x, f x = false) -> filter f l = [].
Proof.
  intros H. induction l as [|x l IH]; cbn; [reflexivity|]. now rewrite H.
Qed.

(** X16: a date range whose end bound, as [format_date] reads it, lies
    before its start bound selects no record, whatever the store and
    the other criteria. *)
Theorem inverted_range_selects_nothing (category tag : option string)
        (start_date end_date : string) (w : world) :
  start_date <> ""%string ->
  end_date <> ""%string ->
  String.ltb (date_bound (today w) end_date) (date_bound (today w) start_date) = true ->
  filter_expenses (crit category) (crit tag) (PStr start_date) (PStr end_date) w
  = (Ok "Filter complete. Found 0 expenses totaling $0.00."%string,
     out w [LFilterResults 0; LNoExpenses]).
Proof.
  intros Hs He Hlt.
  pose proof (filter_expenses_eq category tag (Some start_date) (Some end_date) w) as E.
  cbv zeta in E. cbn [crit] in E. rewrite E.
  rewrite filter_none; [reflexivity|].
  intros exp. unfold matches, from_date, to_date, supplied.
  rewrite (proj2 (String.eqb_neq _ _) Hs), (proj2 (String.eqb_neq _ _) He).
  destruct (String.leb (date_bound (today w) start_date) (Expense.date exp)) eqn:L1;
    [|now rewrite !andb_false_r].
  destruct (String.leb (Expense.date exp) (date_bound (today w) end_date)) eqn:L2;
    [|now rewrite !andb_false_r].
  pose proof (string_leb_trans _ _ _ L1 L2) as L3.
  apply string_leb_ltb in L3. congruence.
Qed.

(** *** Dispatch to the tools *)

(** X17: the filter intent on a non-empty store.  The parameters of
    the response other than the intent, nulls left out, are passed to
    [filter_expenses] by name; when they are among its four parameters
    and are text, the message is the summary of that filter behind the
    done mark, with no chart, and the table of the selection is printed.
    A parameter of any other name makes the call fail with a TypeError,
    which is reported as an internal error; nothing is filtered. *)
Theorem filter_intent_runs_filter (text api_key t : string) (v : pyval) (args : kwargs)
        (w : world) :
  api_key <> ""%string ->
  next_text w = Ok t ->
  json_loads t = Some v ->
  resolved_intent v = Ok "filter"%string ->
  intent_args v = Ok args ->
  expenses w <> [] ->
  let w1 := posted w (intent_request text api_key) in
  if forallb (fun p => mem_str (fst p) ["category"; "tag"; "start_date"; "end_date"]) args
  then
    forall category tag start_date end_date,
      kwarg args "category" = crit category ->
      kwarg args "tag" = crit tag ->
      kwarg args "start_date" = crit start_date ->
      kwarg args "end_date" = crit end_date ->
      let sel := filter (matches (today w) category tag start_date end_date)
                        (expenses w) in
      execute_agent_command text api_key w
      = (Ok (PStr ("✅ Done! " ++ report sel)%string, None),
         out w1 (LFilterResults (List.length sel) :: listing sel))
  else
    execute_agent_command text api_key w
    = (Ok (PStr ("An internal error occurred: " ++ str_exn TypeError)%string, None),
       out w1 [LFatal TypeError]).
Proof.
  intros Hk Ht Hv Hi Ha He w1. subst w1.
  destruct (forallb _ args) eqn:Hall.
  - intros category tag start_date end_date Hc Htg Hsd Hed sel.
    resolve_intent Hk Ht Hv Hi. fold (intent_request text api_key).
    cbn [intent_args] in Ha. inversion Ha as [Hargs]. rewrite Hargs.
    cbn [assoc TOOL_MAP String.eqb Ascii.eqb Bool.eqb].
    unfold bind at 1. unfold read_expenses at 1. cbn [expenses posted].
    destruct (expenses w) as [|e0 rest] eqn:Hexp; [contradiction|].
    unfold bind at 1. unfold call_filter_expenses. rewrite Hall.
    unfold bind at 1. rewrite Hc, Htg, Hsd, Hed.
    pose proof (filter_expenses_eq category tag start_date end_date
                  (posted w (intent_request text api_key))) as E.
    cbv zeta in E. cbn [expenses posted today] in E. rewrite Hexp in E. rewrite E.
    reflexivity.
  - resolve_intent Hk Ht Hv Hi. fold (intent_request text api_key).
    cbn [intent_args] in Ha. inversion Ha as [Hargs]. rewrite Hargs.
    cbn [assoc TOOL_MAP String.eqb Ascii.eqb Bool.eqb].
    unfold bind at 1. unfold read_expenses at 1. cbn [expenses posted].
    destruct (expenses w) as [|e0 rest] eqn:Hexp; [contradiction|].
    unfold bind at 1. unfold call_filter_expenses. rewrite Hall. reflexivity.
Qed.

(** X18: the plot_trend intent on a non-empty store ignores the
    parameters of the response and answers with the trend chart and the
    done message when the DataFrame keeps a record, with the charting
    failure and no chart when it keeps none; only the request is added
    to the world. *)
Theorem trend_intent_runs_trend (text api_key t : string) (v : pyval) (w : world) :
  api_key <> ""%string ->
  next_text w = Ok t ->
  json_loads t = Some v ->
  resolved_intent v = Ok "plot_trend"%string ->
  expenses w <> [] ->
  execute_agent_command text api_key w
  = (match kept_rows (expenses w) with
     | [] => Ok (PStr "❌ Charting Failed: Not enough data to generate spending trend chart.",
                 None)
     | rows =>
         Ok (PStr "✅ Done! Chart generated successfully.",
             Some (Line (groupby_sum Z.ltb Z.eqb (date_rows rows))))
     end,
     posted w (intent_request text api_key)).
Proof.
  intros Hk Ht Hv Hi He. resolve_intent Hk Ht Hv Hi.
  fold (intent_request text api_key).
  cbn [assoc TOOL_MAP String.eqb Ascii.eqb Bool.eqb].
  unfold bind at 1. unfold read_expenses at 1. cbn [expenses posted].
  destruct (expenses w) as [|e rest] eqn:Hexp; [contradiction|].
  unfold bind at 1. unfold plot_spending_trend.
  unfold bind at 1. rewrite create_dataframe_eq by (cbn; now rewrite Hexp).
  cbn [expenses posted]. rewrite Hexp.
  destruct (kept_rows (e :: rest)); reflexivity.
Qed.

(** X19: a structured response whose text is not JSON, is not an
    object, or holds an intent that is not text, is reported by
    [execute_agent_command] as an internal error that names the
    exception, with no chart; no tool runs and no second call is made. *)
Theorem malformed_intent_is_reported (text api_key t : string) (e : exn) (w : world) :
  api_key <> ""%string ->
  next_text w = Ok t ->
  match json_loads t with
  | None => e = JSONDecodeError
  | Some v => resolved_intent v = Raise e
  end ->
  execute_agent_command text api_key w
  = (Ok (PStr ("An internal error occurred: " ++ str_exn e)%string, None),
     out (posted w (intent_request text api_key)) [LFatal e]).
Proof.
  intros Hk Ht Hv. unfold execute_agent_command.
  rewrite (key_present _ Hk). cbv zeta. unfold try_except. rewrite opening_eq.
  unfold next_text in Ht.
  destruct (next_reply w) as [raw|e0]; cbn [and_then] in Ht; [|discriminate].
  unfold bind at 1. unfold lift at 1. rewrite Ht.
  unfold bind at 1. unfold lift at 1. unfold loads.
  fold (intent_request text api_key).
  destruct (json_loads t) as [v|]; [|now subst e].
  unfold resolved_intent in Hv.
  unfold bind at 1. unfold lift at 1. rewrite Hv. reflexivity.
Qed.

End Program.

(** ** Closed instances *)

(** C1, as stated, fails: the second element of the batch has no amount,
    the call reports the failure, and the record of the first element is
    in the store all the same. *)
Lemma partial_commit_example :
  let w := fresh Sample.day [Sample.answer (PStr "batch")] in
  let r := parse_expenses_via_gemini Sample.lib "milk 3.50, bread" "key" w in
  fst r = Ok (None, "An error occurred during parsing: TypeError")
  /\ expenses w = []
  /\ expenses (snd r) = [Sample.milk]
  /\ expense_id_counter (snd r) = 3.
Proof. vm_compute. repeat split. Qed.

Lemma parse_commits_leading_items_witness :
  let w := fresh Sample.day [Sample.answer (PStr "batch")] in
  let r := parse_expenses_via_gemini Sample.lib "milk 3.50, bread" "key" w in
  "key" <> ""
  /\ next_text w = Ok "batch"
  /\ (expenses (snd r) = [] ++ [Sample.milk])%list
  /\ List.length [Sample.milk] = List.length [Sample.good_item]
  /\ exists e, fst r = Ok (None, "An error occurred during parsing: " ++ Sample.str_exn e).
Proof.
  assert (Hk : "key" <> "") by discriminate.
  assert (Ht : next_text (fresh Sample.day [Sample.answer (PStr "batch")]) = Ok "batch")
    by reflexivity.
  split; [exact Hk|]. split; [exact Ht|].
  exact (parse_commits_leading_items Sample.lib "milk 3.50, bread" "key" "batch"
           (fresh Sample.day [Sample.answer (PStr "batch")]) Hk Ht).
Defined.

(** C2, as stated, fails: the amount -5 is accepted and stored. *)
Lemma negative_amount_is_stored :
  let r := add_expense Sample.lib (PInt (-5)) (PStr "food") (PStr "refund")
                       (PStr "2026-11-03") PNone (fresh Sample.day []) in
  fst r = Ok (Expense.mk 1 (-5) "food" "2026-11-03" "refund" [])
  /\ expenses (snd r) = [Expense.mk 1 (-5) "food" "2026-11-03" "refund" []]
  /\ PrimFloat.ltb (-5) 0 = true.
Proof. vm_compute. repeat split. Qed.

Lemma add_expense_amount_coercion_witness :
  let w := Sample.store [] in
  add_expense Sample.lib (PInt (-5)) (PStr " Food ") (PStr "refund ") (PStr "2026-11-03")
              (PList [PStr " Cash "; PStr "shop"]) w
  = (Ok (Expense.mk 3 (-5) "food" "2026-11-03" "refund" ["cash"; "shop"]),
     stored w (Expense.mk 3 (-5) "food" "2026-11-03" "refund" ["cash"; "shop"]))
  /\ add_expense Sample.lib (PInt (-5)) (PStr " Food ") (PStr "refund ") (PStr "2026-11-03")
                 PNone w
     = (Ok (Expense.mk 3 (-5) "food" "2026-11-03" "refund" []),
        stored w (Expense.mk 3 (-5) "food" "2026-11-03" "refund" []))
  /\ add_expense Sample.lib (PInt 3) (PStr "food") (PStr "soup") (PStr "2026-11-04")
                 (PList [PInt 1]) w
     = (Raise AttributeError, skipped w)
  /\ add_expense Sample.lib (PStr "abc") (PStr "food") (PStr "soup") (PStr "2026-11-04")
                 (PList [PInt 1]) w
     = (Raise ValueError, skipped w).
Proof.
  cbv zeta. split; [|split; [|split]].
  - exact (proj1 (add_expense_amount_coercion Sample.lib (PInt (-5)) " Food " "refund "
                    "2026-11-03" (Sample.store []))
                 (Some [" Cash "; "shop"])).
  - exact (proj1 (add_expense_amount_coercion Sample.lib (PInt (-5)) " Food " "refund "
                    "2026-11-03" (Sample.store []))
                 None).
  - exact (proj2 (add_expense_amount_coercion Sample.lib (PInt 3) "food" "soup"
                    "2026-11-04" (Sample.store []))
                 [PInt 1] eq_refl).
  - exact (add_expense_amount_coercion Sample.lib (PStr "abc") "food" "soup"
             "2026-11-04" (Sample.store []) (PList [PInt 1])).
Defined.

Lemma ids_count_from_one_witness :
  let calls :=
    [ mk_call (PFloat 12.345) (PStr " Groceries ") (PStr " Milk ") (PStr "bad-date")
              (PList [PStr "Dairy "]);
      mk_call (PInt 4) (PStr "Transport") (PStr "bus") (PStr "2026-11-04") PNone ] in
  let run := run_calls Sample.lib calls (fresh Sample.day []) in
  Forall (fun o => exists e, o = Ok e) (fst run)
  /\ fst run = map Ok (expenses (snd run))
  /\ map Expense.id (expenses (snd run)) = [1; 2].
Proof.
  cbv zeta.
  match goal with
  | |- ?H /\ _ =>
      assert (Hall : H) by (vm_compute; repeat constructor; eexists; reflexivity)
  end.
  split; [exact Hall|].
  exact (ids_count_from_one Sample.lib _ Sample.day [] Hall).
Defined.


(** C10, as stated, fails: the bound 2024-1-5 is not in YYYY-MM-DD form,
    yet [strptime] reads it as the fifth of January 2024 and the filter
    starts there, where a filter from the current date finds one record
    less. *)
Lemma one_digit_bound_is_not_today :
  let w := Sample.store [] in
  PyDate.strptime "2024-1-5" = Some (PyDate.mk_ymd 2024 1 5)
  /\ PyDate.strptime "2024-01- 5" = Some (PyDate.mk_ymd 2024 1 5)
  /\ filter_expenses Sample.lib PNone PNone (PStr "2024-1-5") PNone w
     = (Ok "Filter complete. Found 2 expenses totaling $7.50.",
        out w [LFilterResults 2; LRule; LHeader; LRule;
               LRow Sample.milk; LRow Sample.bus; LRule])
  /\ filter_expenses Sample.lib PNone PNone (PStr "2024-1-5") PNone w
     = filter_expenses Sample.lib PNone PNone (PStr "2024-01-05") PNone w
  /\ PyDate.strftime (Lib.pads_year Sample.lib) (today w) = "2026-11-04"
  /\ filter_expenses Sample.lib PNone PNone (PStr "2026-11-04") PNone w
     = (Ok "Filter complete. Found 1 expenses totaling $4.00.",
        out w [LFilterResults 1; LRule; LHeader; LRule; LRow Sample.bus; LRule]).
Proof. vm_compute. repeat split. Qed.

Lemma date_bound_is_read_or_today_witness :
  let w := Sample.store [] in
  "garbage" <> ""
  /\ PyDate.strptime "garbage" = None
  /\ filter_expenses Sample.lib PNone PNone (PStr "garbage") PNone w
     = (Ok "Filter complete. Found 1 expenses totaling $4.00.",
        out w [LFilterResults 1; LRule; LHeader; LRule; LRow Sample.bus; LRule])
  /\ filter_expenses Sample.lib PNone PNone PNone (PStr "garbage") w
     = (Ok "Filter complete. Found 2 expenses totaling $7.50.",
        out w [LFilterResults 2; LRule; LHeader; LRule;
               LRow Sample.milk; LRow Sample.bus; LRule]).
Proof.
  assert (Hs : "garbage" <> "") by discriminate.
  split; [exact Hs|]. split; [reflexivity|].
  exact (date_bound_is_read_or_today Sample.lib None None None "garbage"
           (Sample.store []) Hs).
Defined.

(** C6, as stated, fails: the store holds a record, its amount is NaN,
    and plot_distribution returns the charting failure and no chart. *)
Lemma no_chart_on_nan_store :
  let replies := [Sample.answer (PStr "plot")] in
  let w := Sample.nan_store replies in
  snd (add_expense Sample.lib (PFloat nan) (PStr "misc") (PStr "n/a")
                   (PStr "2026-11-04") PNone (fresh Sample.day replies)) = w
  /\ List.length (expenses w) = 1%nat
  /\ fst (execute_agent_command Sample.lib "pie chart please" "key" w)
     = Ok (PStr "❌ Charting Failed: Not enough data to generate category distribution chart.",
           None).
Proof. vm_compute. repeat split. Qed.

Lemma dispatch_needs_records_witness :
  let w := Sample.store [Sample.answer (PStr "plot")] in
  "key" <> ""
  /\ next_text w = Ok "plot"
  /\ Lib.json_loads Sample.lib "plot" = Some (PDict [("intent", PStr "plot_distribution")])
  /\ resolved_intent (PDict [("intent", PStr "plot_distribution")]) = Ok "plot_distribution"
  /\ mem_str "plot_distribution" ["filter"; "plot_distribution"; "plot_trend"] = true
  /\ execute_agent_command Sample.lib "pie chart please" "key" w
     = (Ok (PStr "✅ Done! Chart generated successfully.",
            Some (Pie [("food", 3.5%float); ("transport", 4%float)])),
        posted w (intent_request "pie chart please" "key")).
Proof.
  assert (Hk : "key" <> "") by discriminate.
  do 5 (split; [first [exact Hk | reflexivity]|]).
  exact (dispatch_needs_records Sample.lib "pie chart please" "key" "plot"
           (PDict [("intent", PStr "plot_distribution")]) "plot_distribution"
           (Sample.store [Sample.answer (PStr "plot")])
           Hk eq_refl eq_refl eq_refl eq_refl eq_refl).
Defined.

(** C7, as stated, fails: the label delete names no tool and is not none,
    and it is answered without a second call; the reply that waits at the
    endpoint is not consumed. *)
Lemma no_fallback_for_delete :
  let w := fresh Sample.day [Sample.answer (PStr "delete"); Sample.answer (PStr "Hello!")] in
  let r := execute_agent_command Sample.lib "delete everything" "key" w in
  fst r = Ok (PStr "Agent could not map 'delete' to an action.", None)
  /\ sent (snd r) = [intent_request "delete everything" "key"]
  /\ inbox (snd r) = [Sample.answer (PStr "Hello!")].
Proof. vm_compute. repeat split. Qed.

Lemma fallback_for_none_only_witness :
  let w := fresh Sample.day [Sample.answer (PStr "chat"); Sample.answer (PStr "Hello!")] in
  let r := execute_agent_command Sample.lib "good morning" "key" w in
  "key" <> ""
  /\ next_text w = Ok "chat"
  /\ Lib.json_loads Sample.lib "chat" = Some (PDict [("intent", PStr "None")])
  /\ resolved_intent (PDict [("intent", PStr "None")]) = Ok "none"
  /\ mem_str "none" ["filter"; "plot_distribution"; "plot_trend"] = false
  /\ (sent (snd r) = [] ++ [intent_request "good morning" "key";
                            natural_request "good morning" "key"])%list
  /\ fst r = Ok (PStr "Hello!", None).
Proof.
  assert (Hk : "key" <> "") by discriminate.
  do 5 (split; [first [exact Hk | reflexivity]|]).
  exact (fallback_for_none_only Sample.lib "good morning" "key" "chat"
           (PDict [("intent", PStr "None")]) "none"
           (fresh Sample.day [Sample.answer (PStr "chat"); Sample.answer (PStr "Hello!")])
           Hk eq_refl eq_refl eq_refl eq_refl).
Defined.

(** ** Closed instances of the further properties *)

Lemma format_date_of_rendered_witness :
  let w := Sample.store [] in
  PyDate.valid (PyDate.mk_ymd 2024 2 29) = true
  /\ PyDate.valid (PyDate.mk_ymd 999 1 1) = true
  /\ (PyDate.strptime "2024-02-29" = Some (PyDate.mk_ymd 2024 2 29)
      /\ format_date Sample.lib (PStr "2024-02-29") w = (Ok "2024-02-29", w))
  /\ (PyDate.strptime "999-01-01" = None
      /\ format_date Sample.lib (PStr "999-01-01") w = (Ok "2026-11-04", w))
  /\ (PyDate.strptime "0999-01-01" = Some (PyDate.mk_ymd 999 1 1)
      /\ format_date Demo.lib (PStr "0999-01-01") w = (Ok "0999-01-01", w)).
Proof.
  cbv zeta. do 2 (split; [reflexivity|]). split; [|split].
  - exact (format_date_of_rendered Sample.lib (PyDate.mk_ymd 2024 2 29)
             (Sample.store []) eq_refl).
  - exact (format_date_of_rendered Sample.lib (PyDate.mk_ymd 999 1 1)
             (Sample.store []) eq_refl).
  - exact (format_date_of_rendered Demo.lib (PyDate.mk_ymd 999 1 1)
             (Sample.store []) eq_refl).
Defined.


Lemma session_dates_rendered_witness :
  PyDate.valid Sample.day = true
  /\ Forall (fun e =>
               exists x, PyDate.valid x = true
                         /\ Expense.date e = PyDate.strftime (Lib.pads_year Sample.lib) x
                         /\ (four_digits Sample.lib (PyDate.year x) = true ->
                             PyDate.strptime (Expense.date e) = Some x))
            (expenses (run Sample.lib
                           [AddExpense (PInt 3) (PStr "Food") (PStr "soup") (PStr "bad-date")
                                       PNone;
                            AddExpense (PInt 3) (PStr "Food") (PStr "soup")
                                       (PStr "0999-01-01") PNone;
                            ParseExpensesViaGemini "milk 3.50, bread" "key"]
                           (fresh Sample.day [Sample.answer (PStr "batch")]))).
Proof.
  split; [reflexivity|].
  exact (session_dates_rendered Sample.lib _ Sample.day _ eq_refl).
Defined.

Lemma stored_record_is_found_witness :
  let calls := [AddExpense (PInt 4) (PStr "transport") (PStr "bus") (PStr "2026-11-04")
                           PNone;
                AddExpense (PFloat 12.345) (PStr " Groceries ") (PStr " Milk ")
                           (PStr "bad-date") (PList [PStr "Dairy "])] in
  let e := Expense.mk 2 12.35 "groceries" "2026-11-04" "Milk" ["dairy"] in
  let w := run Sample.lib calls (fresh Sample.day []) in
  In e (expenses w)
  /\ (exists sel,
         filter_expenses Sample.lib (PStr "groceries") PNone PNone PNone w
         = (Ok (report sel),
            out w (LFilterResults (List.length sel)
                   :: [LRule; LHeader; LRule] ++ map LRow sel ++ [LRule])%list)
         /\ In e sel)
  /\ forall tg, In tg ["dairy"] ->
       exists sel,
         filter_expenses Sample.lib PNone (PStr tg) PNone PNone w
         = (Ok (report sel),
            out w (LFilterResults (List.length sel)
                   :: [LRule; LHeader; LRule] ++ map LRow sel ++ [LRule])%list)
         /\ In e sel.
Proof.
  cbv zeta.
  match goal with
  | |- ?H /\ _ => assert (Hin : H) by (right; left; vm_compute; reflexivity)
  end.
  split; [exact Hin|].
  exact (stored_record_is_found Sample.lib _ Sample.day [] _ Hin).
Defined.

Lemma failed_call_is_reported_witness :
  let w := Sample.store [Reply (mk_response 500 None)] in
  let p := parse_expenses_via_gemini Sample.lib "milk 3.50" "key" w in
  let a := execute_agent_command Sample.lib "milk 3.50" "key" w in
  "key" <> ""
  /\ next_text w = Raise HTTPError
  /\ fst p = Ok (None, "An error occurred during parsing: HTTPError")
  /\ fst a = Ok (PStr "An internal error occurred: HTTPError", None)
  /\ expenses (snd p) = expenses w
  /\ expense_id_counter (snd p) = expense_id_counter w
  /\ List.length (sent (snd p)) = 1%nat
  /\ List.length (sent (snd a)) = 1%nat.
Proof.
  assert (Hk : "key" <> "") by discriminate.
  split; [exact Hk|]. split; [reflexivity|].
  exact (failed_call_is_reported Sample.lib "milk 3.50" "key" HTTPError
           (Sample.store [Reply (mk_response 500 None)]) Hk eq_refl).
Defined.

Lemma batch_ids_consecutive_witness :
  let w := Sample.store [Sample.answer (PStr "two items")] in
  let r := parse_expenses_via_gemini Demo.lib "milk 3.50, rice 2" "key" w in
  "key" <> ""
  /\ next_text w = Ok "two items"
  /\ Lib.json_loads Demo.lib "two items" = Some (PList [Sample.good_item; Demo.rice])
  /\ forallb (inserts Demo.lib (today w)) [Sample.good_item; Demo.rice] = true
  /\ exists recs,
       (expenses (snd r) = expenses w ++ recs)%list
       /\ List.length recs = 2%nat
       /\ map Expense.id recs = [3; 4]
       /\ expense_id_counter (snd r) = 3 + 2.
Proof.
  assert (Hk : "key" <> "") by discriminate.
  do 4 (split; [first [exact Hk | reflexivity]|]).
  exact (batch_ids_consecutive Demo.lib "milk 3.50, rice 2" "key" "two items"
           [Sample.good_item; Demo.rice]
           (Sample.store [Sample.answer (PStr "two items")]) Hk eq_refl eq_refl eq_refl).
Defined.

Lemma failed_insert_uses_an_id_witness :
  let w := Sample.store [] in
  let w1 := snd (add_expense Sample.lib PNone (PStr "Food") (PStr "soup") (PStr "2026-11-04")
                             PNone w) in
  let e := Expense.mk 4 3 "food" "2026-11-04" "soup" [] in
  fst (add_expense Sample.lib PNone (PStr "Food") (PStr "soup") (PStr "2026-11-04") PNone w)
  = Raise TypeError
  /\ fst (add_expense Sample.lib (PInt 3) (PStr "Food") (PStr "soup") (PStr "2026-11-04")
                      PNone w1) = Ok e
  /\ expenses w1 = expenses w
  /\ stdout w1 = stdout w
  /\ Expense.id e = 3 + 1
  /\ (expenses (snd (add_expense Sample.lib (PInt 3) (PStr "Food") (PStr "soup")
                                 (PStr "2026-11-04") PNone w1))
      = expenses w ++ [e])%list.
Proof.
  cbv zeta.
  match goal with
  | |- ?A /\ ?B /\ _ =>
      assert (Ha : A) by reflexivity;
      assert (Hb : B) by (vm_compute; reflexivity)
  end.
  split; [exact Ha|]. split; [exact Hb|].
  exact (failed_insert_uses_an_id Sample.lib _ _ _ _ _ _ _ _ _ _ _ _ _ Ha Hb).
Defined.

Lemma batch_item_date_witness :
  let w := Sample.store [] in
  PyDate.valid (today w) = true
  /\ forall e, fst (add_item Demo.lib Demo.rice w) = Ok e ->
               Expense.date e = "2026-11-04".
Proof.
  split; [reflexivity|].
  exact (batch_item_date Demo.lib
           [("amount", PInt 2); ("category", PStr " Food"); ("description", PStr "rice ")]
           (Sample.store []) eq_refl).
Defined.

Lemma category_chart_table_witness :
  let w := Demo.store [] in
  kept_rows Demo.lib (expenses w) <> []
  /\ exists chart,
       plot_category_distribution Demo.lib w = (Ok (OutFig (Pie chart)), w)
       /\ StronglySorted (fun a b => String.ltb a b = true) (map fst chart)
       /\ forall c v,
            In (c, v) chart <->
            In c (map fst (category_rows (kept_rows Demo.lib (expenses w))))
            /\ v = PyFloat.sum (amounts_of String.eqb c
                                  (category_rows (kept_rows Demo.lib (expenses w)))).
Proof.
  assert (Hk : kept_rows Demo.lib (expenses (Demo.store [])) <> [])
    by (vm_compute; discriminate).
  split; [exact Hk|].
  exact (category_chart_table Demo.lib (Demo.store []) Hk).
Defined.

Lemma trend_chart_table_witness :
  let w := Demo.store [] in
  kept_rows Demo.lib (expenses w) <> []
  /\ exists chart,
       plot_spending_trend Demo.lib w = (Ok (OutFig (Line chart)), w)
       /\ StronglySorted Z.lt (map fst chart)
       /\ forall t v,
            In (t, v) chart <->
            In t (map fst (date_rows (kept_rows Demo.lib (expenses w))))
            /\ v = PyFloat.sum (amounts_of Z.eqb t
                                  (date_rows (kept_rows Demo.lib (expenses w)))).
Proof.
  assert (Hk : kept_rows Demo.lib (expenses (Demo.store [])) <> [])
    by (vm_compute; discriminate).
  split; [exact Hk|].
  exact (trend_chart_table Demo.lib (Demo.store []) Hk).
Defined.

Lemma inverted_range_selects_nothing_witness :
  let w := Demo.store [] in
  "2026-12-01" <> ""
  /\ "2026-01-01" <> ""
  /\ String.ltb (date_bound Demo.lib (today w) "2026-01-01")
                (date_bound Demo.lib (today w) "2026-12-01") = true
  /\ filter_expenses Demo.lib PNone PNone (PStr "2026-12-01") (PStr "2026-01-01") w
     = (Ok "Filter complete. Found 0 expenses totaling $0.00.",
        out w [LFilterResults 0; LNoExpenses]).
Proof.
  assert (H1 : "2026-12-01" <> "") by discriminate.
  assert (H2 : "2026-01-01" <> "") by discriminate.
  split; [exact H1|]. split; [exact H2|]. split; [reflexivity|].
  exact (inverted_range_selects_nothing Demo.lib None None "2026-12-01" "2026-01-01"
           (Demo.store []) H1 H2 eq_refl).
Defined.

Lemma filter_intent_runs_filter_witness :
  let w := Demo.store [Sample.answer (PStr "food")] in
  let v := PDict [("intent", PStr "Filter"); ("category", PStr " Food "); ("tag", PNone)] in
  let args := [("category", PStr " Food ")] in
  "key" <> ""
  /\ next_text w = Ok "food"
  /\ Lib.json_loads Demo.lib "food" = Some v
  /\ resolved_intent v = Ok "filter"
  /\ intent_args v = Ok args
  /\ expenses w <> []
  /\ execute_agent_command Demo.lib "what did I spend on food" "key" w
     = (Ok (PStr "✅ Done! Filter complete. Found 2 expenses totaling $5.00.", None),
        out (posted w (intent_request "what did I spend on food" "key"))
            (LFilterResults 2 :: listing [Sample.milk; Demo.tea])).
Proof.
  assert (Hk : "key" <> "") by discriminate.
  assert (He : expenses (Demo.store [Sample.answer (PStr "food")]) <> [])
    by discriminate.
  do 5 (split; [first [exact Hk | reflexivity]|]). split; [exact He|].
  exact (filter_intent_runs_filter Demo.lib "what did I spend on food" "key" "food"
           (PDict [("intent", PStr "Filter"); ("category", PStr " Food "); ("tag", PNone)])
           [("category", PStr " Food ")]
           (Demo.store [Sample.answer (PStr "food")])
           Hk eq_refl eq_refl eq_refl eq_refl He
           (Some " Food ") None None None eq_refl eq_refl eq_refl eq_refl).
Defined.

Lemma trend_intent_runs_trend_witness :
  let w := Demo.store [Sample.answer (PStr "trend")] in
  "key" <> ""
  /\ next_text w = Ok "trend"
  /\ Lib.json_loads Demo.lib "trend" = Some (PDict [("intent", PStr "plot_trend")])
  /\ resolved_intent (PDict [("intent", PStr "plot_trend")]) = Ok "plot_trend"
  /\ expenses w <> []
  /\ execute_agent_command Demo.lib "how did I spend over time" "key" w
     = (Ok (PStr "✅ Done! Chart generated successfully.",
            Some (Line [(754016, 3.5%float); (754017, 5.5%float)])),
        posted w (intent_request "how did I spend over time" "key")).
Proof.
  assert (Hk : "key" <> "") by discriminate.
  assert (He : expenses (Demo.store [Sample.answer (PStr "trend")]) <> [])
    by discriminate.
  do 4 (split; [first [exact Hk | reflexivity]|]). split; [exact He|].
  exact (trend_intent_runs_trend Demo.lib "how did I spend over time" "key" "trend"
           (PDict [("intent", PStr "plot_trend")])
           (Demo.store [Sample.answer (PStr "trend")])
           Hk eq_refl eq_refl eq_refl He).
Defined.

Lemma malformed_intent_is_reported_witness :
  let w := Demo.store [Sample.answer (PStr "list")] in
  "key" <> ""
  /\ next_text w = Ok "list"
  /\ resolved_intent (PList []) = Raise AttributeError
  /\ execute_agent_command Demo.lib "hello" "key" w
     = (Ok (PStr "An internal error occurred: AttributeError", None),
        out (posted w (intent_request "hello" "key")) [LFatal AttributeError]).
Proof.
  assert (Hk : "key" <> "") by discriminate.
  do 3 (split; [first [exact Hk | reflexivity]|]).
  exact (malformed_intent_is_reported Demo.lib "hello" "key" "list" AttributeError
           (Demo.store [Sample.answer (PStr "list")]) Hk eq_refl eq_refl).
Defined.
